(** * Systematic-alpha decision pipeline: sizing, liquidity, risk gate

    A shallow embedding of the task procedures of the systematic-alpha
    module (define market disposition, fit profit mechanism, calculate
    position sizing, check liquidity, pre-trade checklist, calculate beta
    weighting).  The procedures are written as sequential IF / ELSE rules
    over dollar amounts and percentages; amounts and percentages are
    modelled as exact rationals, "round down" is [Qfloor], a REJECT / HALT
    is an early return and an ERROR / ABORT is an error result. *)

From Stdlib Require Import QArith Qround Qminmax Qabs Lqa ZArith Lia List String Bool.
From Stdlib Require Import Permutation Sorted.
Import ListNotations.
Open Scope Q_scope.

(** ** Comparisons as the rules write them *)

Definition Qgtb (x y : Q) : bool := negb (Qle_bool x y).
Definition Qltb (x y : Q) : bool := negb (Qle_bool y x).
Definition Qgeb (x y : Q) : bool := Qle_bool y x.
Definition Qleb (x y : Q) : bool := Qle_bool x y.

Infix ">?" := Qgtb (at level 70, no associativity) : Q_scope.
Infix "<?" := Qltb (at level 70, no associativity) : Q_scope.
Infix ">=?" := Qgeb (at level 70, no associativity) : Q_scope.
Infix "<=?" := Qleb (at level 70, no associativity) : Q_scope.

(** "Round down to nearest whole number". *)
Definition round_down (x : Q) : Q := inject_Z (Qfloor x).

(** Classification and conviction, shared by sizing and the checklist. *)
Inductive position_type := core | speculative.
Inductive conviction_level := HIGH | MODERATE | LOW.

(** ** calculate_sizing: Calculate Position Sizing *)

Module Sizing.

(** The three families of Step 5.  A debit spread carries the debit paid
    per spread, a stock position its price; the stop-loss alternative for
    stock carries entry and stop. *)
Inductive trade_structure :=
| DebitSpread (debit_paid : Q)
| CreditSpread
| StockPosition (stock_price : Q)
| StockWithStop (entry_price stop_loss_price : Q).

Record sizing_input := {
  portfolio_total_value : Q;
  position_type_of : position_type;
  conviction_of : conviction_level;
  trade_structure_of : trade_structure;
  max_loss_per_spread : Q;
  position_value_per_contract : Q;
  capital_per_contract : Q;
  current_position_correlation : option Q;
  existing_exposure_pct : option Q
}.

(** Step 1 *)
Definition base_allocation_pct (t : position_type) : Q :=
  match t with
  | core => 0.10
  | speculative => 0.02
  end.

(** Step 2 *)
Definition conviction_multiplier (c : conviction_level) : Q :=
  match c with
  | HIGH => 1.0
  | MODERATE => 0.7
  | LOW => 0.5
  end.

Definition adjusted_allocation_pct (t : position_type) (c : conviction_level) : Q :=
  base_allocation_pct t * conviction_multiplier c.

(** Step 3 *)
Definition dollar_allocation (i : sizing_input) : Q :=
  portfolio_total_value i *
  adjusted_allocation_pct (position_type_of i) (conviction_of i).

(** Step 4 *)
Definition max_risk_pct (t : position_type) (c : conviction_level) : Q :=
  match t with
  | core =>
      match c with
      | HIGH => 0.03
      | MODERATE => 0.02
      | LOW => 0.01
      end
  | speculative =>
      match c with
      | HIGH => 0.02
      | MODERATE => 0.015
      | LOW => 0.01
      end
  end.

Definition max_dollar_risk (i : sizing_input) : Q :=
  portfolio_total_value i * max_risk_pct (position_type_of i) (conviction_of i).

(** Step 5, Method 2: risk budget over max loss per spread, rounded down. *)
Definition contracts_from_risk (i : sizing_input) : Q :=
  round_down (max_dollar_risk i / max_loss_per_spread i).

(** Step 5, Method 1: dollar allocation over the price of one unit,
    rounded down (for stock: down to the nearest 100 shares). *)
Definition round_lot (x : Q) : Q := 100 * round_down (x / 100).

Definition contracts_from_allocation (i : sizing_input) : option Q :=
  match trade_structure_of i with
  | DebitSpread debit_paid => Some (round_down (dollar_allocation i / debit_paid))
  | CreditSpread => None
  | StockPosition stock_price => Some (round_lot (dollar_allocation i / stock_price))
  | StockWithStop _ _ => None
  end.

(** Step 5: the unit count before the adjustments of Steps 6 and 7. *)
Definition initial_contracts (i : sizing_input) : Q :=
  match trade_structure_of i with
  | DebitSpread debit_paid =>
      Qmin (round_down (dollar_allocation i / debit_paid)) (contracts_from_risk i)
  | CreditSpread => contracts_from_risk i
  | StockPosition stock_price => round_lot (dollar_allocation i / stock_price)
  | StockWithStop entry_price stop_loss_price =>
      max_dollar_risk i / (entry_price - stop_loss_price)
  end.

(** Step 6 *)
Definition correlation_reduction (i : sizing_input) : option Q :=
  match current_position_correlation i with
  | Some correlation =>
      if correlation >? 0.8 then Some 0.5
      else if correlation >? 0.7 then Some 0.7
      else if correlation >? 0.5 then Some 0.85
      else None
  | None => None
  end.

Definition adjusted_contracts (i : sizing_input) : Q :=
  match correlation_reduction i with
  | Some r => round_down (initial_contracts i * r)
  | None => initial_contracts i
  end.

Inductive message :=
| CorrelationReduced
| TickerExposureExceeds15
| SkipAtMaxExposure
| PositionTooSmall
| SingleContract
| PositionExceeds15.

(** Step 7.  Returns the capped count and whether the 15% warning fired. *)
Definition concentration_limit (i : sizing_input) (contracts : Q) : Q * bool :=
  match existing_exposure_pct i with
  | Some existing =>
      let new_exposure_value := contracts * position_value_per_contract i in
      let new_exposure_pct := new_exposure_value / portfolio_total_value i in
      let total_ticker_exposure := existing + new_exposure_pct in
      if total_ticker_exposure >? 0.15 then
        let max_allowable_new := (0.15 - existing) * portfolio_total_value i in
        let max_contracts := max_allowable_new / position_value_per_contract i in
        (Qmin contracts max_contracts, true)
      else (contracts, false)
  | None => (contracts, false)
  end.

Inductive recommendation :=
| APPROVED
| SKIP_MAX_EXPOSURE
| POSITION_TOO_SMALL.

Record PositionSizeResult := {
  final_contracts : Q;
  total_risk : Q;
  risk_pct : Q;
  position_value : Q;
  messages : list message;
  recommended : recommendation
}.

Inductive outcome :=
| Sized (r : PositionSizeResult)
| ABORT_RISK_EXCEEDS_5.

(** Steps 6 to 8 chained on the Step 5 count.  The count Step 7 and Step 8
    read is the one Step 6 leaves (the worked example: 5 contracts at
    correlation 0.75 become 3). *)
Definition calculate_sizing (i : sizing_input) : outcome :=
  let m6 := match correlation_reduction i with
            | Some _ => [CorrelationReduced]
            | None => []
            end in
  let '(final, capped) := concentration_limit i (adjusted_contracts i) in
  let m7 := if capped
            then TickerExposureExceeds15 ::
                 (if final <? 1 then [SkipAtMaxExposure] else [])
            else [] in
  let rec7 := if capped && (final <? 1) then SKIP_MAX_EXPOSURE else APPROVED in
  (* 1. Minimum Position Check *)
  let rec8 := if final <? 1 then POSITION_TOO_SMALL else rec7 in
  let m81 := if final <? 1 then [PositionTooSmall] else [] in
  (* 2. Odd Lot Check *)
  let m82 := if Qeq_bool final 1 then [SingleContract] else [] in
  (* 3. Maximum Position Check *)
  let value := final * capital_per_contract i in
  let m83 := if value >? portfolio_total_value i * 0.15
             then [PositionExceeds15] else [] in
  (* 4. Risk Verification *)
  let risk := final * max_loss_per_spread i in
  let pct := risk / portfolio_total_value i * 100 in
  if pct >? 5 then ABORT_RISK_EXCEEDS_5
  else Sized {| final_contracts := final;
                total_risk := risk;
                risk_pct := pct;
                position_value := value;
                messages := m6 ++ m7 ++ m81 ++ m82 ++ m83;
                recommended := rec8 |}.

(** The worked example: NVDA 500/520 call vertical. *)
Definition nvda_vertical : sizing_input :=
  {| portfolio_total_value := 100000;
     position_type_of := core;
     conviction_of := HIGH;
     trade_structure_of := DebitSpread 1200;
     max_loss_per_spread := 1200;
     position_value_per_contract := 1200;
     capital_per_contract := 1200;
     current_position_correlation := None;
     existing_exposure_pct := None |}.

(** A stock position: 10% of $100,000 at $30 a share, $12 at risk a share. *)
Definition stock_round_lot : sizing_input :=
  {| portfolio_total_value := 100000;
     position_type_of := core;
     conviction_of := HIGH;
     trade_structure_of := StockPosition 30;
     max_loss_per_spread := 12;
     position_value_per_contract := 30;
     capital_per_contract := 30;
     current_position_correlation := None;
     existing_exposure_pct := None |}.

(** The same position with $20 at risk a share. *)
Definition stock_over_risk : sizing_input :=
  {| portfolio_total_value := 100000;
     position_type_of := core;
     conviction_of := HIGH;
     trade_structure_of := StockPosition 30;
     max_loss_per_spread := 20;
     position_value_per_contract := 30;
     capital_per_contract := 30;
     current_position_correlation := None;
     existing_exposure_pct := None |}.

(** The speculative example: AMD short strangle, credit $450, estimated
    maximum loss $2,500 per contract. *)
Definition amd_short_strangle : sizing_input :=
  {| portfolio_total_value := 100000;
     position_type_of := speculative;
     conviction_of := MODERATE;
     trade_structure_of := CreditSpread;
     max_loss_per_spread := 2500;
     position_value_per_contract := 450;
     capital_per_contract := 450;
     current_position_correlation := None;
     existing_exposure_pct := None |}.

End Sizing.


(** ** define_disposition: Define Market Disposition *)

Module Disposition.

Inductive sector_etf := XLK | XLF | XLE | XLV | XLI | XLY | XLP | XLU | XLB.

Record market_data := {
  SPY : Q;
  SMA_20 : Q;
  SMA_50 : Q;
  SMA_200 : Q;
  RSI : Q;
  VIX : Q;
  VIX_20_day_average : Q;
  sector_returns : list Q;
  top_sector : sector_etf;
  econ_signal : Z
}.

(** Step 1: price trend, -3 .. +3. *)
Definition trend_signal (m : market_data) : Z :=
  if (SPY m >? SMA_20 m) && (SMA_20 m >? SMA_50 m) && (SMA_50 m >? SMA_200 m) then 3
  else if (SPY m >? SMA_50 m) && (SMA_50 m >? SMA_200 m) then 2
  else if SPY m >? SMA_200 m then 1
  else if (SPY m <? SMA_20 m) && (SMA_20 m <? SMA_50 m) && (SMA_50 m <? SMA_200 m) then -3
  else if (SPY m <? SMA_50 m) && (SMA_50 m <? SMA_200 m) then -2
  else if SPY m <? SMA_200 m then -1
  else 0.

Definition momentum_signal (m : market_data) : Z :=
  if RSI m >? 60 then 1
  else if RSI m <? 40 then -1
  else 0.

(** Step 2 *)
Definition vol_signal (m : market_data) : Z :=
  if VIX m <? 15 then 1
  else if (VIX m >=? 15) && (VIX m <? 20) then 0
  else if (VIX m >=? 20) && (VIX m <? 30) then -1
  else -2.

Definition vix_trend (m : market_data) : Z :=
  if VIX m <? VIX_20_day_average m then 1 else -1.

(** Step 3 *)
Definition bullish_sector_count (m : market_data) : Z :=
  Z.of_nat (List.length (filter (fun r => r >? 0) (sector_returns m))).

Definition sector_signal (m : market_data) : Z :=
  let c := bullish_sector_count m in
  if (c >=? 7)%Z then 2
  else if (c >=? 5)%Z then 1
  else if (c <=? 2)%Z then -2
  else if (c <=? 4)%Z then -1
  else 0.

Definition leadership_signal (m : market_data) : Z :=
  match top_sector m with
  | XLK | XLY => 1
  | XLU | XLP => -1
  | _ => 0
  end.

(** Step 5 *)
Definition total_score (m : market_data) : Z :=
  (trend_signal m + momentum_signal m + vol_signal m + vix_trend m +
   sector_signal m + leadership_signal m + econ_signal m)%Z.

Inductive market_disposition := STRONG_BULL | BULL | NEUTRAL | BEAR | STRONG_BEAR.

Definition determine_disposition (total_score : Z) : market_disposition :=
  if (total_score >=? 5)%Z then STRONG_BULL
  else if (total_score >=? 2)%Z then BULL
  else if (total_score >=? -1)%Z then NEUTRAL
  else if (total_score >=? -4)%Z then BEAR
  else STRONG_BEAR.

Definition recommended_delta_target (d : market_disposition) : Z :=
  match d with
  | STRONG_BULL => 60
  | BULL => 40
  | NEUTRAL => 0
  | BEAR => -40
  | STRONG_BEAR => -60
  end.

(** Decision Rules, Score Interpretation: the table of the same task,
    row by row (+7 to +10, +2 to +6, -1 to +1, -6 to -2, -10 to -7). *)
Definition score_interpretation (total_score : Z) : option market_disposition :=
  if (7 <=? total_score)%Z && (total_score <=? 10)%Z then Some STRONG_BULL
  else if (2 <=? total_score)%Z && (total_score <=? 6)%Z then Some BULL
  else if (-1 <=? total_score)%Z && (total_score <=? 1)%Z then Some NEUTRAL
  else if (-6 <=? total_score)%Z && (total_score <=? -2)%Z then Some BEAR
  else if (-10 <=? total_score)%Z && (total_score <=? -7)%Z then Some STRONG_BEAR
  else None.

(** Decision Rules, Override Conditions. *)
Inductive final_disposition :=
| Scored (d : market_disposition) (bear_bias : bool)
| CRISIS.

Definition define_disposition (m : market_data) : final_disposition :=
  if VIX m >? 35 then CRISIS
  else Scored (determine_disposition (total_score m))
              ((SPY m <? SMA_200 m) && (VIX m >? 25)).

(** The console example: SPY 450.25 over 448 / 442 / 430, RSI 62.5,
    VIX 16.2 and declining, 7 of 9 sectors positive, XLK leading. *)
Definition example_market : market_data :=
  {| SPY := 450.25; SMA_20 := 448; SMA_50 := 442; SMA_200 := 430;
     RSI := 62.5; VIX := 16.2; VIX_20_day_average := 17;
     sector_returns := [8.5; 3; 2; 1; 4; 6; 1.5; -1; -2];
     top_sector := XLK; econ_signal := 0 |}.

End Disposition.

(** ** fit_mechanism: Fit Profit Mechanism *)

Module Mechanism.

Import Disposition.

Inductive trend_state :=
| STRONG_UPTREND | UPTREND | WEAK_UPTREND | STRONG_DOWNTREND | DOWNTREND | RANGE_BOUND.

Inductive vol_premium_state := OVERPRICED | UNDERPRICED | FAIR.

Inductive momentum_state :=
| STRONG_MOMENTUM | MODERATE_MOMENTUM | NEUTRAL_MOMENTUM | NEGATIVE_MOMENTUM.

Inductive mechanism :=
| EARNINGS_VOLATILITY | VRP | MOMENTUM_DRIFT | MEAN_REVERSION | NO_EDGE.

Record ticker_input := {
  price : Q;
  MA_20 : Q;
  MA_50 : Q;
  MA_200 : Q;
  iv_rank : option Q;
  realized_vol : Q;
  implied_vol : Q;
  stock_rs_vs_spy : Q;
  days_to_earnings : option Z;
  price_deviation_sigma : Q;
  disposition : market_disposition;
  liquidity_insufficient : bool;
  correlation_with_existing : list Q;
  technical_quality_score : Q
}.

(** Step 2 *)
Definition classify_trend (t : ticker_input) : trend_state :=
  if (price t >? MA_20 t) && (MA_20 t >? MA_50 t) && (MA_50 t >? MA_200 t) then STRONG_UPTREND
  else if (price t >? MA_50 t) && (MA_50 t >? MA_200 t) then UPTREND
  else if price t >? MA_200 t then WEAK_UPTREND
  else if (price t <? MA_20 t) && (MA_20 t <? MA_50 t) && (MA_50 t <? MA_200 t) then STRONG_DOWNTREND
  else if (price t <? MA_50 t) && (MA_50 t <? MA_200 t) then DOWNTREND
  else RANGE_BOUND.

(** A comparison on an absent iv_rank does not hold. *)
Definition iv_rank_gt (t : ticker_input) (x : Q) : bool :=
  match iv_rank t with Some r => r >? x | None => false end.

Definition iv_rank_lt (t : ticker_input) (x : Q) : bool :=
  match iv_rank t with Some r => r <? x | None => false end.

Definition classify_vol_premium (t : ticker_input) : vol_premium_state :=
  if iv_rank_gt t 50 && (realized_vol t <? implied_vol t * 0.8) then OVERPRICED
  else if iv_rank_lt t 30 && (realized_vol t >? implied_vol t * 1.2) then UNDERPRICED
  else FAIR.

Definition classify_momentum (t : ticker_input) : momentum_state :=
  if stock_rs_vs_spy t >? 10 then STRONG_MOMENTUM
  else if stock_rs_vs_spy t >? 5 then MODERATE_MOMENTUM
  else if stock_rs_vs_spy t >? -5 then NEUTRAL_MOMENTUM
  else NEGATIVE_MOMENTUM.

(** Step 3: the decision tree, first match wins. *)
Definition earnings_within (t : ticker_input) (n : Z) : bool :=
  match days_to_earnings t with Some d => (d <=? n)%Z | None => false end.

Definition match_mechanism (t : ticker_input) : mechanism :=
  if earnings_within t 30 && iv_rank_lt t 40 then EARNINGS_VOLATILITY
  else if match classify_vol_premium t with OVERPRICED => true | _ => false end
          && iv_rank_gt t 60
          && match classify_trend t with
             | RANGE_BOUND | WEAK_UPTREND => true
             | _ => false
             end then VRP
  else if match classify_momentum t with
          | STRONG_MOMENTUM | MODERATE_MOMENTUM => true
          | _ => false
          end
          && match classify_trend t with
             | STRONG_UPTREND | UPTREND => true
             | _ => false
             end
          && match disposition t with
             | STRONG_BULL | BULL => true
             | _ => false
             end then MOMENTUM_DRIFT
  else if match classify_trend t with RANGE_BOUND => true | _ => false end
          && (price_deviation_sigma t >? 2) then MEAN_REVERSION
  else NO_EDGE.

Section Override.

(** Which mechanism conflicts with which disposition is not spelled out by
    the task; it is a parameter. *)
Variable conflicts_with_disposition : mechanism -> market_disposition -> bool.

(** Decision Rules, Override Conditions. *)
Definition override_to_no_edge (t : ticker_input) (m : mechanism) : bool :=
  earnings_within t 7
  || liquidity_insufficient t
  || existsb (fun c => c >? 0.8) (correlation_with_existing t)
  || conflicts_with_disposition m (disposition t)
  || (technical_quality_score t <? 5).

Definition fit_mechanism (t : ticker_input) : mechanism :=
  let m := match_mechanism t in
  if override_to_no_edge t m then NO_EDGE else m.

End Override.

(** An earnings play whose preconditions match (earnings in 5 days, IV rank
    30) inside the 7-day blackout. *)
Definition earnings_in_blackout : ticker_input :=
  {| price := 100; MA_20 := 98; MA_50 := 95; MA_200 := 90;
     iv_rank := Some 30; realized_vol := 28; implied_vol := 32;
     stock_rs_vs_spy := 12; days_to_earnings := Some 5%Z;
     price_deviation_sigma := 0.5; disposition := STRONG_BULL;
     liquidity_insufficient := false; correlation_with_existing := [];
     technical_quality_score := 9 |}.

End Mechanism.

(** ** check_liquidity: Check Liquidity *)

Module Liquidity.

Record option_contract := {
  bid_price : Q;
  ask_price : Q;
  bid_size : Q;
  ask_size : Q;
  volume_today : Q;
  open_interest : Q;
  last_trade_minutes_ago : Q;
  strike : Q;
  stock_price : Q
}.

Record stock_quote := {
  stock_avg_daily_volume : Q;
  stock_bid : Q;
  stock_ask : Q
}.

Inductive spread_tier := EXCELLENT | ACCEPTABLE | POOR | UNACCEPTABLE.

Inductive reject_reason :=
| SpreadTooWide            (* Step 3, primary rule: spread_pct > 0.5% *)
| SpreadUnacceptable       (* Step 3, tiers: spread_pct > 1.0% *)
| VolumeBelowThreshold     (* Step 4 *)
| OpenInterestInsufficient (* Step 5 *)
| NoRecentTrading          (* Step 7 *)
| DeepOTMPoorLiquidity     (* Step 8 *)
| StockTooIlliquid         (* Step 9 *)
| StockSpreadTooWide       (* Step 9 *)
| AutoSpreadOver1          (* Step 11, 1 *)
| AutoVolume               (* Step 11, 2 *)
| AutoOpenInterest         (* Step 11, 3 *)
| AutoNoTrades2h           (* Step 11, 4 *)
| AutoStockVolume          (* Step 11, 5 *)
| NoMarket                 (* Decision Rules, 7 *)
| ScoreBelow40.            (* Step 10 / Decision Rules, 8 *)

Inductive warning :=
| SpreadPoor
| VolumeVeryLow
| VolumeLow
| OpenInterestVeryLow
| OpenInterestLow
| InsufficientDepth
| StalePricing
| StrikeFarFromATM
| StockLowVolume
| StockWideSpread
| WarnSpread05to10         (* Step 11, warning 1 *)
| WarnVolume100to500
| WarnOI500to1000
| WarnSizeBelowPosition.

Inductive rating := RATING_EXCELLENT | RATING_GOOD | RATING_MARGINAL | RATING_POOR.

(** Step 2 *)
Definition spread_dollars (c : option_contract) : Q := ask_price c - bid_price c.
Definition mid_price (c : option_contract) : Q := (bid_price c + ask_price c) / 2.
Definition spread_pct (c : option_contract) : Q := spread_dollars c / mid_price c * 100.
Definition spread_pct_of_stock (c : option_contract) : Q :=
  spread_dollars c / stock_price c * 100.

(** Step 3, tiered thresholds. *)
Definition tier_of (spread_pct : Q) : spread_tier :=
  if spread_pct <=? 0.2 then EXCELLENT
  else if spread_pct <=? 0.5 then ACCEPTABLE
  else if spread_pct <=? 1.0 then POOR
  else UNACCEPTABLE.

Definition when {A} (b : bool) (x : A) : list A := if b then [x] else [].

Definition step3_rejects (sp : Q) : list reject_reason :=
  when (sp >? 0.5) SpreadTooWide ++
  when (match tier_of sp with UNACCEPTABLE => true | _ => false end) SpreadUnacceptable.

(** Step 4 *)
Definition min_volume_threshold (position_size : Q) : Q := Qmax 100 (position_size * 20).

Definition step4_rejects (c : option_contract) (position_size : Q) : list reject_reason :=
  when (volume_today c <? min_volume_threshold position_size) VolumeBelowThreshold.

(** Step 5 *)
Definition step5_rejects (c : option_contract) (position_size : Q) : list reject_reason :=
  when (open_interest c <? position_size * 50) OpenInterestInsufficient.

(** Step 7 *)
Definition step7_rejects (c : option_contract) : list reject_reason :=
  when (last_trade_minutes_ago c >? 120) NoRecentTrading.

(** Step 8 *)
Definition distance_from_atm (c : option_contract) : Q :=
  Qabs (strike c - stock_price c) / stock_price c * 100.

Definition step8_rejects (c : option_contract) (sp : Q) : list reject_reason :=
  when ((distance_from_atm c >? 20) && (sp >? 1.0)) DeepOTMPoorLiquidity.

(** Step 9 *)
Definition stock_spread_pct (s : stock_quote) : Q :=
  (stock_ask s - stock_bid s) / ((stock_bid s + stock_ask s) / 2) * 100.

Definition step9_rejects (stock_check : option stock_quote) : list reject_reason :=
  match stock_check with
  | Some s =>
      when (stock_avg_daily_volume s <? 200000) StockTooIlliquid ++
      when (stock_spread_pct s >? 0.5) StockSpreadTooWide
  | None => []
  end.

(** Step 10: five components of up to 20 points. *)
Definition spread_points (sp : Q) : Z :=
  if sp <=? 0.2 then 20
  else if sp <=? 0.5 then 15
  else if sp <=? 1.0 then 10
  else 0.

Definition volume_points (v : Q) : Z :=
  if v >=? 5000 then 20
  else if v >=? 1000 then 15
  else if v >=? 500 then 10
  else if v >=? 100 then 5
  else 0.

Definition open_interest_points (oi : Q) : Z :=
  if oi >=? 10000 then 20
  else if oi >=? 5000 then 15
  else if oi >=? 1000 then 10
  else if oi >=? 500 then 5
  else 0.

Definition depth_points (c : option_contract) (position_size : Q) : Z :=
  let size := Qmin (bid_size c) (ask_size c) in
  if size >=? 2 * position_size then 20
  else if size >=? position_size then 15
  else if size >=? 0.5 * position_size then 10
  else 0.

Definition recency_points (minutes : Q) : Z :=
  if minutes <? 5 then 20
  else if minutes <? 30 then 15
  else if minutes <? 120 then 10
  else 0.

Definition liquidity_score (c : option_contract) (sp position_size : Q) : Z :=
  (spread_points sp + volume_points (volume_today c) +
   open_interest_points (open_interest c) + depth_points c position_size +
   recency_points (last_trade_minutes_ago c))%Z.

Definition rating_of (score : Z) : rating :=
  if (score >=? 80)%Z then RATING_EXCELLENT
  else if (score >=? 60)%Z then RATING_GOOD
  else if (score >=? 40)%Z then RATING_MARGINAL
  else RATING_POOR.

(** Step 11 and Decision Rules: automatic rejection. *)
Definition step11_rejects (c : option_contract) (stock_check : option stock_quote)
    (sp position_size : Q) : list reject_reason :=
  when (sp >? 1.0) AutoSpreadOver1 ++
  when ((volume_today c <? 100) || (volume_today c <? position_size * 20)) AutoVolume ++
  when ((open_interest c <? 500) || (open_interest c <? position_size * 50)) AutoOpenInterest ++
  when (last_trade_minutes_ago c >? 120) AutoNoTrades2h ++
  match stock_check with
  | Some s => when (stock_avg_daily_volume s <? 200000) AutoStockVolume
  | None => []
  end ++
  when (Qeq_bool (bid_price c) 0 || Qeq_bool (ask_price c) 0) NoMarket ++
  when (liquidity_score c sp position_size <? 40)%Z ScoreBelow40.

Definition warnings_of (c : option_contract) (stock_check : option stock_quote)
    (sp position_size : Q) : list warning :=
  when (match tier_of sp with POOR => true | _ => false end) SpreadPoor ++
  when (volume_today c <? 100) VolumeVeryLow ++
  when (volume_today c <? 500) VolumeLow ++
  when (open_interest c <? 500) OpenInterestVeryLow ++
  when (open_interest c <? 1000) OpenInterestLow ++
  when ((bid_size c <? position_size * 0.5) || (ask_size c <? position_size * 0.5))
       InsufficientDepth ++
  when (last_trade_minutes_ago c >? 30) StalePricing ++
  when (distance_from_atm c >? 20) StrikeFarFromATM ++
  match stock_check with
  | Some s =>
      when (stock_avg_daily_volume s <? 500000) StockLowVolume ++
      when (stock_spread_pct s >? 0.1) StockWideSpread
  | None => []
  end ++
  when ((sp >? 0.5) && (sp <=? 1.0)) WarnSpread05to10 ++
  when ((volume_today c >=? 100) && (volume_today c <? 500)) WarnVolume100to500 ++
  when ((open_interest c >=? 500) && (open_interest c <? 1000)) WarnOI500to1000 ++
  when ((bid_size c <? position_size) || (ask_size c <? position_size))
       WarnSizeBelowPosition.

Record contract_check := {
  checked_spread_pct : Q;
  tier : spread_tier;
  score : Z;
  score_rating : rating;
  rejections : list reject_reason;
  warnings : list warning
}.

Inductive contract_result :=
| NoValidMarket                 (* Step 2: mid_price <= 0 *)
| Checked (r : contract_check).

(** Steps 2 to 11 for one contract.  Every REJECT met on the way is
    recorded; the contract is approved when none was. *)
Definition check_contract (c : option_contract) (stock_check : option stock_quote)
    (position_size : Q) : contract_result :=
  if mid_price c >? 0 then
    let sp := spread_pct c in
    let s := liquidity_score c sp position_size in
    Checked {| checked_spread_pct := sp;
               tier := tier_of sp;
               score := s;
               score_rating := rating_of s;
               rejections :=
                 step3_rejects sp ++ step4_rejects c position_size ++
                 step5_rejects c position_size ++ step7_rejects c ++
                 step8_rejects c sp ++ step9_rejects stock_check ++
                 step11_rejects c stock_check sp position_size;
               warnings := warnings_of c stock_check sp position_size |}
  else NoValidMarket.

Definition approved (r : contract_result) : bool :=
  match r with
  | NoValidMarket => false
  | Checked k => match rejections k with [] => true | _ => false end
  end.

(** All contracts of the structure are checked, not just one leg. *)
Definition check_liquidity (contracts : list option_contract)
    (stock_check : option stock_quote) (position_size : Q) : bool :=
  forallb (fun c => approved (check_contract c stock_check position_size)) contracts.

(** Contract 1 of the PASS example: NVDA Jan 500 call, 2 contracts. *)
Definition nvda_500_call : option_contract :=
  {| bid_price := 28.40; ask_price := 28.60; bid_size := 150; ask_size := 200;
     volume_today := 8524; open_interest := 15234; last_trade_minutes_ago := 2;
     strike := 500; stock_price := 502.50 |}.

(** Contract 2 of the PASS example: NVDA Jan 520 call. *)
Definition nvda_520_call : option_contract :=
  {| bid_price := 16.40; ask_price := 16.60; bid_size := 120; ask_size := 180;
     volume_today := 6892; open_interest := 12456; last_trade_minutes_ago := 1;
     strike := 520; stock_price := 502.50 |}.

End Liquidity.

(** ** pre_trade_checklist: Pre-Trade Checklist *)

Module Gate.

Import Disposition.

Inductive liquidity_status := LIQ_APPROVED | LIQ_REJECTED.

Record liquidity_check_results := {
  status : liquidity_status;
  spread_pct : Q
}.

Inductive event_type := FOMC | CPI | NFP | GDP | OTHER_EVENT.

Record calendar_event := {
  event_days_away : Z;
  event_kind : event_type
}.

Inductive trade_direction := bullish | bearish | neutral_direction.

(** One row of the portfolio per ticker: dollar exposure and open risk. *)
Record existing_position := {
  ticker_of : string;
  exposure : Q;
  open_risk : Q
}.

Record portfolio_state := {
  portfolio_total_value : Q;
  positions : list existing_position
}.

Record gate_input := {
  ticker : string;
  position_size : Q;
  cost_per_contract : Q;
  max_loss_per_contract : Q;
  position_type_of : position_type;
  conviction : conviction_level;
  liquidity : liquidity_check_results;
  portfolio : portfolio_state;
  earnings_days_away : option Z;
  is_earnings_play : bool;
  economic_calendar : list calendar_event;
  market_disposition_of : market_disposition;
  direction : trade_direction;
  justification_given : bool;
  sector_relative_strength : Q;
  entry_price : Q;
  support_level : Q;
  resistance_level : Q;
  price_near_support : bool;
  stock_price : Q;
  MA_20 : Q;
  MA_50 : Q;
  MA_200 : Q;
  potential_profit : Q;
  potential_loss : Q;
  market_closed : bool;
  requires_margin : bool;
  margin_available : Q;
  margin_required : Q;
  account_cash : Q;
  capital_required : Q;
  days_to_expiration : list Z;
  warnings_acknowledged : bool
}.

Inductive reject_reason :=
| FailedLiquidity
| SpreadTooWide
| EarningsTooClose
| SingleTickerOver15
| CorrelatedOver25
| SizeExceedsMaximum
| RiskExceedsAllowed
| RiskExceedsAbsolute5
| BullishInDowntrend
| RiskRewardUnacceptable
| PortfolioRiskOver15
| InsufficientMargin
| InsufficientCash
| TooCloseToExpiration.

Inductive gate_warning :=
| EarningsApproaching
| HighImpactEvent (e : event_type)
| HighCorrelation (with_ticker : string)
| BearishInBull
| BullishInBear
| BullishInWeakSector
| FarFromSupport
| NearResistance
| NearSupport
| RiskRewardBelow1
| PortfolioRiskElevated
| MarketClosed
| ExpiringSoon.

Inductive section_outcome :=
| PASS (warnings : list gate_warning)
| FAIL (reason : reject_reason).

Definition when {A} (b : bool) (x : A) : list A := if b then [x] else [].

(** Percentage of the portfolio: value / portfolio_total_value x 100. *)
Definition pct_of (total x : Q) : Q := x / total * 100.

Definition pct (i : gate_input) (x : Q) : Q :=
  pct_of (portfolio_total_value (portfolio i)) x.

(** SECTION 1: Liquidity Verification *)
Definition section1 (i : gate_input) : section_outcome :=
  match status (liquidity i) with
  | LIQ_REJECTED => FAIL FailedLiquidity
  | LIQ_APPROVED =>
      if spread_pct (liquidity i) >? 0.5 then FAIL SpreadTooWide
      else PASS []
  end.

(** SECTION 2: Event Risk Check.  The test position_type != earnings_volatility
    of the 14-day flag is the input flag [is_earnings_play]. *)
Definition high_impact (e : event_type) : bool :=
  match e with
  | FOMC | CPI | NFP | GDP => true
  | OTHER_EVENT => false
  end.

Definition event_flags (i : gate_input) : list gate_warning :=
  flat_map (fun e => when ((event_days_away e <=? 3)%Z && high_impact (event_kind e))
                          (HighImpactEvent (event_kind e)))
           (economic_calendar i).

Definition section2 (i : gate_input) : section_outcome :=
  match earnings_days_away i with
  | Some days_to_earnings =>
      if (days_to_earnings <=? 7)%Z then FAIL EarningsTooClose
      else PASS (when ((days_to_earnings <=? 14)%Z && negb (is_earnings_play i))
                      EarningsApproaching ++ event_flags i)
  | None => PASS (event_flags i)
  end.

(** SECTION 4: position value and maximum loss of the new position. *)
Definition position_value (i : gate_input) : Q := position_size i * cost_per_contract i.
Definition max_loss (i : gate_input) : Q := position_size i * max_loss_per_contract i.

Section Correlation.

Variable calculate_correlation : string -> string -> Q.

(** The holdings that count towards the correlated group of ticker [t]:
    [t] itself and every ticker whose correlation with [t] is above 0.8. *)
Definition in_group (t other : string) : bool :=
  String.eqb other t || (calculate_correlation t other >? 0.8).

Definition sum_where (f : string -> bool) (ps : list existing_position) : Q :=
  fold_right (fun p acc => if f (ticker_of p) then exposure p + acc else acc) 0 ps.

Definition ticker_exposure (ps : list existing_position) (t : string) : Q :=
  sum_where (fun other => String.eqb other t) ps.

Definition group_exposure (ps : list existing_position) (t : string) : Q :=
  sum_where (in_group t) ps.

(** Modelled from the spec: sum_correlated_positions() is called by
    SECTION 3 but not defined by the task; it is the exposure of the
    holdings in the correlated group of the new ticker plus the new
    position. *)
Definition sum_correlated_positions (i : gate_input) : Q :=
  group_exposure (positions (portfolio i)) (ticker i) + position_value i.

(** SECTION 3: Correlation Check, one pass over the existing positions;
    the first REJECT halts the loop. *)
Fixpoint section3_loop (i : gate_input) (ps : list existing_position)
    (warned : list gate_warning) : section_outcome :=
  match ps with
  | [] => PASS warned
  | existing_position :: rest =>
      let same := String.eqb (ticker_of existing_position) (ticker i) in
      let combined_exposure := exposure existing_position + position_value i in
      if same && (pct i combined_exposure >? 15) then FAIL SingleTickerOver15
      else
        let correlation := calculate_correlation (ticker i) (ticker_of existing_position) in
        if correlation >? 0.8 then
          if pct i (sum_correlated_positions i) >? 25 then FAIL CorrelatedOver25
          else section3_loop i rest
                 (warned ++ [HighCorrelation (ticker_of existing_position)])
        else section3_loop i rest warned
  end.

Definition section3 (i : gate_input) : section_outcome :=
  section3_loop i (positions (portfolio i)) [].

(** SECTION 4: Position Size Validation *)
Definition max_pct (t : position_type) : Q :=
  match t with
  | core => 10
  | speculative => 2
  end.

Definition max_risk_allowed (t : position_type) (c : conviction_level) : Q :=
  match t, c with
  | core, HIGH => 3
  | core, _ => 2
  | speculative, _ => 2
  end.

Definition section4 (i : gate_input) : section_outcome :=
  let position_pct := pct i (position_value i) in
  if position_pct >? max_pct (position_type_of i) then FAIL SizeExceedsMaximum
  else
    let max_loss_pct := pct i (max_loss i) in
    if max_loss_pct >? max_risk_allowed (position_type_of i) (conviction i)
    then FAIL RiskExceedsAllowed
    else if max_loss_pct >? 5 then FAIL RiskExceedsAbsolute5
    else PASS [].

(** SECTION 5: Market Disposition Alignment (warnings only) *)
Definition counter_to_disposition (i : gate_input) : list gate_warning :=
  match market_disposition_of i with
  | STRONG_BULL | BULL =>
      when (match direction i with bearish => true | _ => false end) BearishInBull
  | STRONG_BEAR | BEAR =>
      when (match direction i with bullish => true | _ => false end) BullishInBear
  | NEUTRAL => []
  end.

Definition section5 (i : gate_input) : section_outcome :=
  PASS (counter_to_disposition i ++
        when ((sector_relative_strength i <? -5) &&
              match direction i with bullish => true | _ => false end)
             BullishInWeakSector).

(** SECTION 6: Technical Setup Validation *)
Definition downtrend_alignment (i : gate_input) : bool :=
  (stock_price i <? MA_20 i) && (MA_20 i <? MA_50 i) && (MA_50 i <? MA_200 i).

Definition section6 (i : gate_input) : section_outcome :=
  let levels :=
    match direction i with
    | bullish =>
        let distance_to_support :=
          (entry_price i - support_level i) / entry_price i * 100 in
        let distance_to_resistance :=
          (resistance_level i - entry_price i) / entry_price i * 100 in
        when (distance_to_support >? 5) FarFromSupport ++
        when (distance_to_resistance <? 2) NearResistance
    | bearish => when (price_near_support i) NearSupport
    | neutral_direction => []
    end in
  if downtrend_alignment i && match direction i with bullish => true | _ => false end
  then FAIL BullishInDowntrend
  else PASS levels.

(** SECTION 7: Risk/Reward Verification *)
Definition risk_reward_ratio (i : gate_input) : Q := potential_profit i / potential_loss i.

Definition section7 (i : gate_input) : section_outcome :=
  if risk_reward_ratio i <? 0.5 then FAIL RiskRewardUnacceptable
  else PASS (when (risk_reward_ratio i <? 1.0) RiskRewardBelow1).

(** SECTION 8: Portfolio Risk Budget *)
Definition sum_of_all_open_position_risks (ps : list existing_position) : Q :=
  fold_right (fun p acc => open_risk p + acc) 0 ps.

Definition total_risk_pct (i : gate_input) : Q :=
  let total_risk := sum_of_all_open_position_risks (positions (portfolio i)) in
  let new_position_risk := max_loss i in
  let total_risk_with_new := total_risk + new_position_risk in
  pct i total_risk_with_new.

Definition section8 (i : gate_input) : section_outcome :=
  if total_risk_pct i >? 15 then FAIL PortfolioRiskOver15
  else PASS (when (total_risk_pct i >? 10) PortfolioRiskElevated).

(** SECTION 9: Execution Feasibility *)
Definition section9 (i : gate_input) : section_outcome :=
  if requires_margin i && (margin_available i <? margin_required i)
  then FAIL InsufficientMargin
  else if account_cash i <? capital_required i then FAIL InsufficientCash
  else if existsb (fun d => (d <? 3)%Z) (days_to_expiration i)
  then FAIL TooCloseToExpiration
  else PASS (when (market_closed i) MarketClosed ++
             when (existsb (fun d => (d <? 7)%Z) (days_to_expiration i)) ExpiringSoon).

Inductive section_id :=
| LIQUIDITY | EVENT_RISK | CORRELATION | POSITION_SIZING | MARKET_ALIGNMENT
| TECHNICAL_SETUP | RISK_REWARD | PORTFOLIO_RISK | EXECUTION.

(** The nine sections in the order of the checklist. *)
Definition sections : list (section_id * (gate_input -> section_outcome)) :=
  [ (LIQUIDITY, section1); (EVENT_RISK, section2); (CORRELATION, section3);
    (POSITION_SIZING, section4); (MARKET_ALIGNMENT, section5);
    (TECHNICAL_SETUP, section6); (RISK_REWARD, section7);
    (PORTFOLIO_RISK, section8); (EXECUTION, section9) ].

(** Sections are evaluated in order; a FAIL halts: nothing after it is
    evaluated.  The result lists the sections evaluated with their
    outcome. *)
Fixpoint run_sections (ss : list (section_id * (gate_input -> section_outcome)))
    (i : gate_input) : list (section_id * section_outcome) :=
  match ss with
  | [] => []
  | (id, check) :: rest =>
      match check i with
      | FAIL reason => [(id, FAIL reason)]
      | PASS w => (id, PASS w) :: run_sections rest i
      end
  end.

Definition failed (o : section_outcome) : bool :=
  match o with FAIL _ => true | PASS _ => false end.

Definition halted (evaluated : list (section_id * section_outcome)) : bool :=
  existsb (fun e => failed (snd e)) evaluated.

(** SECTION 10: Final Checklist, the sixteen items. *)
Definition final_checklist (i : gate_input) : list bool :=
  [ match status (liquidity i) with LIQ_APPROVED => true | _ => false end;
    spread_pct (liquidity i) <=? 0.5;
    match earnings_days_away i with
    | Some d => negb (d <=? 7)%Z || is_earnings_play i
    | None => true
    end;
    forallb (fun p => calculate_correlation (ticker i) (ticker_of p) <? 0.8)
            (positions (portfolio i));
    pct i (ticker_exposure (positions (portfolio i)) (ticker i) + position_value i) <=? 15;
    pct i (sum_correlated_positions i) <=? 25;
    pct i (position_value i) <=? max_pct (position_type_of i);
    pct i (max_loss i) <=? max_risk_allowed (position_type_of i) (conviction i);
    match counter_to_disposition i with [] => true | _ => justification_given i end;
    negb (downtrend_alignment i && match direction i with bullish => true | _ => false end);
    risk_reward_ratio i >=? 1.0;
    total_risk_pct i <=? 15;
    account_cash i >=? capital_required i;
    negb (requires_margin i) || (margin_available i >=? margin_required i);
    forallb (fun d => (d >=? 7)%Z) (days_to_expiration i);
    match event_flags i with [] => true | _ => false end ].

Inductive final_status := APPROVED | REJECTED.

Record gate_result := {
  evaluated : list (section_id * section_outcome);
  final : final_status
}.

Definition needs_acknowledgment (w : gate_warning) : bool :=
  match w with
  | EarningsApproaching | BearishInBull | BullishInBear | RiskRewardBelow1 => true
  | _ => false
  end.

Definition surfaced_warnings (evaluated : list (section_id * section_outcome))
    : list gate_warning :=
  flat_map (fun e => match snd e with PASS w => w | FAIL _ => [] end) evaluated.

Definition pre_trade_checklist (i : gate_input) : gate_result :=
  let evaluated := run_sections sections i in
  let passed := List.length (filter (fun b : bool => b) (final_checklist i)) in
  let total := List.length (final_checklist i) in
  {| evaluated := evaluated;
     final :=
       if halted evaluated then REJECTED
       else if Nat.eqb passed total
               && (negb (existsb needs_acknowledgment (surfaced_warnings evaluated))
                   || warnings_acknowledged i)
       then APPROVED
       else REJECTED |}.

(** Modelled from the spec: the commit of an approved trade to the ledger
    is not part of the task files.  On approval the new exposure and the
    new position's risk are added to the row of the ticker, or a row is
    opened for it. *)
Fixpoint add_position (t : string) (value risk : Q) (ps : list existing_position)
    : list existing_position :=
  match ps with
  | [] => [ {| ticker_of := t; exposure := value; open_risk := risk |} ]
  | p :: rest =>
      if String.eqb (ticker_of p) t
      then {| ticker_of := t; exposure := exposure p + value;
              open_risk := open_risk p + risk |} :: rest
      else p :: add_position t value risk rest
  end.

Definition commit (i : gate_input) : portfolio_state :=
  {| portfolio_total_value := portfolio_total_value (portfolio i);
     positions := add_position (ticker i) (position_value i) (max_loss i)
                               (positions (portfolio i)) |}.

(** One step of the ledger: the gate runs and, on APPROVED, commits. *)
Definition gate_step (i : gate_input) : portfolio_state :=
  match final (pre_trade_checklist i) with
  | APPROVED => commit i
  | REJECTED => portfolio i
  end.

(** The exposure limits of the ledger. *)
Definition aggregate_open_risk_pct (l : portfolio_state) : Q :=
  pct_of (portfolio_total_value l) (sum_of_all_open_position_risks (positions l)).

Definition single_ticker_pct (l : portfolio_state) (t : string) : Q :=
  pct_of (portfolio_total_value l) (ticker_exposure (positions l) t).

Definition correlated_group_pct (l : portfolio_state) (t : string) : Q :=
  pct_of (portfolio_total_value l) (group_exposure (positions l) t).

Definition held (l : portfolio_state) (t : string) : Prop :=
  In t (map ticker_of (positions l)).

Record exposure_limits (l : portfolio_state) : Prop := {
  one_row_per_ticker : NoDup (map ticker_of (positions l));
  aggregate_risk_le_15 : aggregate_open_risk_pct l <= 15;
  single_ticker_le_15 : forall t, held l t -> single_ticker_pct l t <= 15;
  correlated_group_le_25 : forall t, held l t -> correlated_group_pct l t <= 25
}.

End Correlation.

(** The APPROVED example: 2 NVDA call verticals at $1,200 against a
    $100,000 portfolio holding MSFT, every item of the checklist met. *)
Definition example_correlation (a b : string) : Q :=
  if String.eqb a b then 1 else 0.65.

Definition nvda_trade : gate_input :=
  {| ticker := "NVDA";
     position_size := 2;
     cost_per_contract := 1200;
     max_loss_per_contract := 1200;
     position_type_of := core;
     conviction := HIGH;
     liquidity := {| status := LIQ_APPROVED; spread_pct := 0.4 |};
     portfolio := {| portfolio_total_value := 100000;
                     positions := [ {| ticker_of := "MSFT"; exposure := 12000;
                                       open_risk := 4200 |} ] |};
     earnings_days_away := Some 28%Z;
     is_earnings_play := false;
     economic_calendar := [];
     market_disposition_of := STRONG_BULL;
     direction := bullish;
     justification_given := false;
     sector_relative_strength := 7.1;
     entry_price := 502.50;
     support_level := 490;
     resistance_level := 520;
     price_near_support := false;
     stock_price := 502.50;
     MA_20 := 495;
     MA_50 := 485;
     MA_200 := 450;
     potential_profit := 3200;
     potential_loss := 2400;
     market_closed := false;
     requires_margin := false;
     margin_available := 0;
     margin_required := 0;
     account_cash := 45000;
     capital_required := 2400;
     days_to_expiration := [45; 45]%Z;
     warnings_acknowledged := false |}.

(** The REJECTED example: XYZ straddle, liquidity check rejected and
    earnings 4 days away. *)
Definition xyz_trade : gate_input :=
  {| ticker := "XYZ";
     position_size := 5;
     cost_per_contract := 440;
     max_loss_per_contract := 440;
     position_type_of := speculative;
     conviction := LOW;
     liquidity := {| status := LIQ_REJECTED; spread_pct := 17.4 |};
     portfolio := {| portfolio_total_value := 100000; positions := [] |};
     earnings_days_away := Some 4%Z;
     is_earnings_play := false;
     economic_calendar := [];
     market_disposition_of := STRONG_BULL;
     direction := neutral_direction;
     justification_given := false;
     sector_relative_strength := -3.2;
     entry_price := 45;
     support_level := 43;
     resistance_level := 46;
     price_near_support := false;
     stock_price := 45;
     MA_20 := 44;
     MA_50 := 45;
     MA_200 := 43;
     potential_profit := 3000;
     potential_loss := 2200;
     market_closed := false;
     requires_margin := false;
     margin_available := 0;
     margin_required := 0;
     account_cash := 45000;
     capital_required := 2200;
     days_to_expiration := [100]%Z;
     warnings_acknowledged := false |}.

(** A trade in CCC against holdings AAA and DDD, where AAA is correlated
    0.9 with both DDD and CCC while DDD and CCC are correlated 0.1. *)
Definition chained_correlation (a b : string) : Q :=
  if String.eqb a b then 1
  else if (String.eqb a "AAA" && String.eqb b "DDD")
          || (String.eqb a "DDD" && String.eqb b "AAA")
          || (String.eqb a "AAA" && String.eqb b "CCC")
          || (String.eqb a "CCC" && String.eqb b "AAA") then 0.9
  else 0.1.

Definition chained_trade : gate_input :=
  {| ticker := "CCC";
     position_size := 10;
     cost_per_contract := 1000;
     max_loss_per_contract := 100;
     position_type_of := core;
     conviction := HIGH;
     liquidity := {| status := LIQ_APPROVED; spread_pct := 0.4 |};
     portfolio := {| portfolio_total_value := 100000;
                     positions := [ {| ticker_of := "AAA"; exposure := 10000;
                                       open_risk := 1000 |};
                                    {| ticker_of := "DDD"; exposure := 14000;
                                       open_risk := 1000 |} ] |};
     earnings_days_away := None;
     is_earnings_play := false;
     economic_calendar := [];
     market_disposition_of := STRONG_BULL;
     direction := bullish;
     justification_given := false;
     sector_relative_strength := 7.1;
     entry_price := 100;
     support_level := 98;
     resistance_level := 110;
     price_near_support := false;
     stock_price := 100;
     MA_20 := 95;
     MA_50 := 90;
     MA_200 := 80;
     potential_profit := 2000;
     potential_loss := 1000;
     market_closed := false;
     requires_margin := false;
     margin_available := 0;
     margin_required := 0;
     account_cash := 45000;
     capital_required := 10000;
     days_to_expiration := [45]%Z;
     warnings_acknowledged := false |}.

End Gate.

(** ** calc_beta_weighting: Calculate Beta Weighting *)

Module BetaWeighting.

(** One row of the portfolio CSV; a field left empty is [None]. *)
Record csv_row := {
  ticker : string;
  position_delta : option Q;
  stock_price : Q;
  beta : option Q
}.

Inductive bias := LONG | SHORT | NEUTRAL.

Inductive beta_error :=
| NonPositivePrice (t : string)
| SpyPriceOutOfRange.

Record summary := {
  total_beta_weighted_delta : Q;
  dollar_exposure : Q;
  directional_bias : bias;
  skipped : list string      (* positions skipped with a warning *)
}.

Inductive beta_result :=
| Computed (s : summary)
| Rejected (e : beta_error).

(** Decision Rules 1: Missing beta -> Default to 1.0 (market beta). *)
Definition beta_or_default (r : csv_row) : Q :=
  match beta r with
  | Some b => b
  | None => 1.0
  end.

(** Step 2 *)
Definition beta_weighted_delta (position_delta b stock_price spy_price : Q) : Q :=
  position_delta * b * stock_price / spy_price.

(** Steps 1 to 3 over the rows: total and the tickers skipped, or the
    first row with a zero or negative price. *)
Fixpoint weigh (rows : list csv_row) (spy_price : Q)
    : beta_error + (Q * list string) :=
  match rows with
  | [] => inr (0, [])
  | r :: rest =>
      if stock_price r <=? 0 then inl (NonPositivePrice (ticker r))
      else
        match weigh rest spy_price with
        | inl e => inl e
        | inr (total, warned) =>
            match position_delta r with
            | None => inr (total, ticker r :: warned)
            | Some d =>
                inr (beta_weighted_delta d (beta_or_default r) (stock_price r) spy_price
                     + total, warned)
            end
        end
  end.

(** Step 5 *)
Definition bias_of (total : Q) : bias :=
  if total >? 10 then LONG
  else if total <? -10 then SHORT
  else NEUTRAL.

Definition calc_beta_weighting (rows : list csv_row) (spy_price : Q) : beta_result :=
  if (spy_price <? 300) || (spy_price >? 600) then Rejected SpyPriceOutOfRange
  else
    match weigh rows spy_price with
    | inl e => Rejected e
    | inr (total, warned) =>
        Computed {| total_beta_weighted_delta := total;
                    dollar_exposure := total * spy_price;
                    directional_bias := bias_of total;
                    skipped := warned |}
    end.

(** The row with an empty beta written out as the market beta. *)
Definition with_market_beta (r : csv_row) : csv_row :=
  {| ticker := ticker r;
     position_delta := position_delta r;
     stock_price := stock_price r;
     beta := Some (beta_or_default r) |}.

(** The CSV of the task, with the beta of MSFT and the delta of TSLA left
    empty. *)
Definition portfolio_with_gaps : list csv_row :=
  [ {| ticker := "AAPL"; position_delta := Some 50; stock_price := 180.50;
       beta := Some 1.25 |};
    {| ticker := "MSFT"; position_delta := Some (-30); stock_price := 350.00;
       beta := None |};
    {| ticker := "TSLA"; position_delta := None; stock_price := 245.00;
       beta := Some 2.05 |} ].

End BetaWeighting.

(** ** define_disposition: economic overview and confidence *)

Module DispositionSteps.

Import Disposition.

Record economic_indicators := {
  gdp_growth : Q;
  unemployment : Q;
  inflation : Q
}.

(** Step 4: each indicator adds or takes a point; nothing provided is 0. *)
Definition economic_overview (e : option economic_indicators) : Z :=
  match e with
  | Some x =>
      ((if (gdp_growth x >? 2.5)%Q then 1 else 0) +
       (if (gdp_growth x <? 1.0)%Q then -1 else 0) +
       (if (unemployment x <? 4.5)%Q then 1 else 0) +
       (if (unemployment x >? 6.0)%Q then -1 else 0) +
       (if (inflation x >? 4)%Q then -1 else 0) +
       (if (inflation x <? 2)%Q then 1 else 0))%Z
  | None => 0%Z
  end.

(** The six signals of Steps 1 to 3. *)
Definition technical_signals (m : market_data) : list Z :=
  [trend_signal m; momentum_signal m; vol_signal m; vix_trend m;
   sector_signal m; leadership_signal m].

(** Step 6 *)
Definition same_sign (a b : Z) : bool := (Z.sgn a =? Z.sgn b)%Z.

Definition aligned_signals (signals : list Z) (total_score : Z) : nat :=
  List.length (filter (fun s => same_sign s total_score) signals).

Definition confidence (signals : list Z) (total_score : Z) : Q :=
  inject_Z (Z.of_nat (aligned_signals signals total_score))
  / inject_Z (Z.of_nat (List.length signals)) * 100.

Definition conviction_of_confidence (confidence : Q) : conviction_level :=
  if confidence >=? 80 then HIGH
  else if confidence >=? 60 then MODERATE
  else LOW.

End DispositionSteps.

(** ** fit_mechanism: trade structure and conviction *)

Module Structure.

Import Mechanism.

Inductive trade_structure :=
| LONG_CALL_VERTICAL | BULL_CALL_SPREAD
| SHORT_STRANGLE | IRON_CONDOR | CALENDAR_SPREAD
| SHORT_CALL_CALENDAR | LONG_CALL_CALENDAR
| LONG_STRADDLE | LONG_STRANGLE.

Record structure_input := {
  conviction : conviction_level;
  account_allows_undefined_risk : bool;
  historical_earnings_moves : Q;
  extended_above_mean : bool;
  extended_below_mean : bool
}.

(** Step 4: the Selection Logic of each mechanism; [None] where no rule of
    the mechanism applies. *)
Definition select_structure (m : mechanism) (t : ticker_input) (s : structure_input)
    : option trade_structure :=
  match m with
  | MOMENTUM_DRIFT =>
      match classify_momentum t, conviction s with
      | STRONG_MOMENTUM, HIGH => Some LONG_CALL_VERTICAL
      | MODERATE_MOMENTUM, _ => Some BULL_CALL_SPREAD
      | _, _ => None
      end
  | VRP =>
      if iv_rank_gt t 70 && account_allows_undefined_risk s then Some SHORT_STRANGLE
      else if iv_rank_gt t 60 then Some IRON_CONDOR
      else Some CALENDAR_SPREAD
  | MEAN_REVERSION =>
      if extended_above_mean s then Some SHORT_CALL_CALENDAR
      else if extended_below_mean s then Some LONG_CALL_CALENDAR
      else None
  | EARNINGS_VOLATILITY =>
      if iv_rank_lt t 30 && (historical_earnings_moves s >? 8) then Some LONG_STRADDLE
      else if iv_rank_lt t 40 then Some LONG_STRANGLE
      else None
  | NO_EDGE => None
  end.

(** Step 5: five component scores of 0 to 10 each. *)
Record conviction_scores := {
  alignment : Q;
  technical_quality : Q;
  relative_strength : Q;
  risk_reward : Q;
  liquidity_score : Q
}.

Definition total_conviction_score (c : conviction_scores) : Q :=
  (alignment c + technical_quality c + relative_strength c + risk_reward c
   + liquidity_score c) / 5.

Inductive conviction_result :=
| Conviction (level : conviction_level)
| VERY_LOW.            (* PASS - insufficient edge *)

Definition determine_conviction (c : conviction_scores) : conviction_result :=
  if total_conviction_score c >=? 8 then Conviction HIGH
  else if total_conviction_score c >=? 6 then Conviction MODERATE
  else if total_conviction_score c >=? 4 then Conviction LOW
  else VERY_LOW.

End Structure.

(** ** determine_needs: Determine Portfolio Needs *)

Module Needs.

Record needs_input := {
  current_beta_weighted_delta : Q;
  target_delta_exposure : Q;
  spy_price : Q;
  tolerance_range : option Q;
  portfolio_size : option Q
}.

Inductive status := BALANCED | ADJUSTMENT_NEEDED.
Inductive need_type := NONE | ADD_LONG_DELTA | ADD_SHORT_DELTA.
Inductive urgency := URGENCY_LOW | URGENCY_MODERATE | URGENCY_HIGH.

(** The tolerance given, or the default of 15 SPY shares, after the
    Portfolio Size Adjustments. *)
Definition effective_tolerance (i : needs_input) : Q :=
  let tolerance := match tolerance_range i with Some t => t | None => 15 end in
  match portfolio_size i with
  | Some size =>
      if size >? 500000 then tolerance * 2
      else if size <? 100000 then tolerance * 0.5
      else tolerance
  | None => tolerance
  end.

(** Step 1 and Step 2 *)
Definition delta_gap (i : needs_input) : Q :=
  target_delta_exposure i - current_beta_weighted_delta i.

Definition dollar_gap (i : needs_input) : Q := delta_gap i * spy_price i.

(** Step 3 *)
Definition status_of (i : needs_input) : status :=
  if Qabs (delta_gap i) <=? effective_tolerance i then BALANCED
  else ADJUSTMENT_NEEDED.

(** Step 4 *)
Definition need_type_of (i : needs_input) : need_type :=
  match status_of i with
  | BALANCED => NONE
  | ADJUSTMENT_NEEDED =>
      if delta_gap i >? 0 then ADD_LONG_DELTA else ADD_SHORT_DELTA
  end.

(** Step 5 *)
Definition magnitude (i : needs_input) : Q := Qabs (delta_gap i).

Definition urgency_of (i : needs_input) : urgency :=
  if magnitude i <? 25 then URGENCY_LOW
  else if magnitude i <? 75 then URGENCY_MODERATE
  else URGENCY_HIGH.

(** Risk Management Overrides: the tranche warning. *)
Definition split_into_tranches (i : needs_input) : bool := delta_gap i >? 100.

End Needs.

(** ** sector_stacking: Sector Stacking *)

Module SectorStacking.

Import Disposition.

(** Step 1 *)
Definition period_return (current_price price_N_days_ago : Q) : Q :=
  (current_price - price_N_days_ago) / price_N_days_ago * 100.

Definition rs_score (sector_return spy_return : Q) : Q := sector_return - spy_return.

Record sector_strength := {
  etf : sector_etf;
  RS_20 : Q;
  RS_40 : Q;
  RS_60 : Q
}.

Definition composite_rs (s : sector_strength) : Q :=
  (RS_20 s * 0.5) + (RS_40 s * 0.3) + (RS_60 s * 0.2).

(** Step 2 *)
Inductive category := STRONG_LEADER | LEADER | INLINE | LAGGARD | STRONG_LAGGARD.

Definition categorize (composite_rs : Q) : category :=
  if composite_rs >? 5 then STRONG_LEADER
  else if composite_rs >? 2 then LEADER
  else if composite_rs >? -2 then INLINE
  else if composite_rs >? -5 then LAGGARD
  else STRONG_LAGGARD.

(** Sort by composite_rs in descending order (insertion sort). *)
Fixpoint insert_sector (s : sector_strength) (ranked : list sector_strength)
    : list sector_strength :=
  match ranked with
  | [] => [s]
  | r :: rest =>
      if composite_rs r <? composite_rs s then s :: r :: rest
      else r :: insert_sector s rest
  end.

Fixpoint rank_sectors (sectors : list sector_strength) : list sector_strength :=
  match sectors with
  | [] => []
  | s :: rest => insert_sector s (rank_sectors rest)
  end.

(** Step 3 *)
Definition quality_score (sector_price SMA_20 SMA_50 : Q) : Z :=
  if (sector_price >? SMA_20) && (SMA_20 >? SMA_50) then 10
  else if sector_price >? SMA_20 then 7
  else if sector_price >? SMA_50 then 5
  else 0.

(** Step 4 *)
Definition is_one_of (e : sector_etf) (l : list sector_etf) : bool :=
  existsb (fun x => match x, e with
                    | XLK, XLK | XLF, XLF | XLE, XLE | XLV, XLV | XLI, XLI
                    | XLY, XLY | XLP, XLP | XLU, XLU | XLB, XLB => true
                    | _, _ => false
                    end) l.

Definition preferred (d : market_disposition) (s : sector_strength) : bool :=
  match d with
  | STRONG_BULL | BULL => is_one_of (etf s) [XLK; XLY; XLI]
  | NEUTRAL => composite_rs s >? 0
  | BEAR | STRONG_BEAR => is_one_of (etf s) [XLU; XLP; XLV]
  end.

Definition avoid (d : market_disposition) (s : sector_strength) : bool :=
  match d with
  | STRONG_BULL | BULL => is_one_of (etf s) [XLU; XLP]
  | NEUTRAL => composite_rs s <? -3
  | BEAR | STRONG_BEAR => is_one_of (etf s) [XLK; XLY]
  end.

(** The warning of the filter: the top ranked sector is one to avoid. *)
Definition top_sector_conflict (d : market_disposition)
    (sectors : list sector_strength) : bool :=
  match rank_sectors sectors with
  | top_sector :: _ => avoid d top_sector
  | [] => false
  end.

(** Step 5 *)
Record stock_returns := {
  stock_return_20d : Q;
  sector_return_20d : Q;
  spy_return_20d : Q
}.

Definition stock_rs_vs_sector (s : stock_returns) : Q :=
  stock_return_20d s - sector_return_20d s.

Definition stock_rs_vs_spy (s : stock_returns) : Q :=
  stock_return_20d s - spy_return_20d s.

Definition stock_composite_score (s : stock_returns) : Q :=
  (stock_rs_vs_sector s * 0.6) + (stock_rs_vs_spy s * 0.4).

(** Step 6 *)
Definition stock_quality_score (criteria : list bool) : Q :=
  inject_Z (Z.of_nat (List.length (filter (fun b : bool => b) criteria)))
  / inject_Z (Z.of_nat (List.length criteria)) * 100.

Definition final_score (stock_composite_score quality_score : Q) : Q :=
  (stock_composite_score * 0.7) + (quality_score * 0.3).

End SectorStacking.

(** ** Example inputs *)

Module Examples.

(** A contract like the NVDA Jan 500 call with a 10 cent market. *)
Definition tight_call : Liquidity.option_contract :=
  {| Liquidity.bid_price := 28.45; Liquidity.ask_price := 28.55;
     Liquidity.bid_size := 150; Liquidity.ask_size := 200;
     Liquidity.volume_today := 8524; Liquidity.open_interest := 15234;
     Liquidity.last_trade_minutes_ago := 2;
     Liquidity.strike := 500; Liquidity.stock_price := 502.50 |}.

(** The NVDA setup of the fit_mechanism console example. *)
Definition nvda_setup : Mechanism.ticker_input :=
  {| Mechanism.price := 502.50; Mechanism.MA_20 := 495; Mechanism.MA_50 := 485;
     Mechanism.MA_200 := 450; Mechanism.iv_rank := Some 42;
     Mechanism.realized_vol := 28; Mechanism.implied_vol := 32;
     Mechanism.stock_rs_vs_spy := 20.5; Mechanism.days_to_earnings := Some 28%Z;
     Mechanism.price_deviation_sigma := 0.5;
     Mechanism.disposition := Disposition.STRONG_BULL;
     Mechanism.liquidity_insufficient := false;
     Mechanism.correlation_with_existing := [0.65];
     Mechanism.technical_quality_score := 10 |}.

Definition moderate_conviction : Structure.structure_input :=
  {| Structure.conviction := MODERATE;
     Structure.account_allows_undefined_risk := false;
     Structure.historical_earnings_moves := 5;
     Structure.extended_above_mean := false;
     Structure.extended_below_mean := false |}.

(** The approved NVDA trade of the checklist, entered after the close. *)
Definition after_hours_trade : Gate.gate_input :=
  {| Gate.ticker := "NVDA";
     Gate.position_size := 2;
     Gate.cost_per_contract := 1200;
     Gate.max_loss_per_contract := 1200;
     Gate.position_type_of := core;
     Gate.conviction := HIGH;
     Gate.liquidity := {| Gate.status := Gate.LIQ_APPROVED; Gate.spread_pct := 0.4 |};
     Gate.portfolio := Gate.portfolio Gate.nvda_trade;
     Gate.earnings_days_away := Some 28%Z;
     Gate.is_earnings_play := false;
     Gate.economic_calendar := [];
     Gate.market_disposition_of := Disposition.STRONG_BULL;
     Gate.direction := Gate.bullish;
     Gate.justification_given := false;
     Gate.sector_relative_strength := 7.1;
     Gate.entry_price := 502.50;
     Gate.support_level := 490;
     Gate.resistance_level := 520;
     Gate.price_near_support := false;
     Gate.stock_price := 502.50;
     Gate.MA_20 := 495;
     Gate.MA_50 := 485;
     Gate.MA_200 := 450;
     Gate.potential_profit := 3200;
     Gate.potential_loss := 2400;
     Gate.market_closed := true;
     Gate.requires_margin := false;
     Gate.margin_available := 0;
     Gate.margin_required := 0;
     Gate.account_cash := 45000;
     Gate.capital_required := 2400;
     Gate.days_to_expiration := [45; 45]%Z;
     Gate.warnings_acknowledged := false |}.

(** A position in SPY itself: beta 1.0 at the SPY price. *)
Definition spy_position (position_delta spy_price : Q) : BetaWeighting.csv_row :=
  {| BetaWeighting.ticker := "SPY";
     BetaWeighting.position_delta := Some position_delta;
     BetaWeighting.stock_price := spy_price;
     BetaWeighting.beta := Some 1.0 |}.

(** The sectors of the console example of sector_stacking, in the order of
    the input list. *)
Definition example_sectors : list SectorStacking.sector_strength :=
  [ {| SectorStacking.etf := Disposition.XLF; SectorStacking.RS_20 := -0.8;
       SectorStacking.RS_40 := -0.8; SectorStacking.RS_60 := -0.8 |};
    {| SectorStacking.etf := Disposition.XLK; SectorStacking.RS_20 := 8.2;
       SectorStacking.RS_40 := 6.5; SectorStacking.RS_60 := 5.1 |};
    {| SectorStacking.etf := Disposition.XLU; SectorStacking.RS_20 := -5.1;
       SectorStacking.RS_40 := -5.1; SectorStacking.RS_60 := -5.1 |};
    {| SectorStacking.etf := Disposition.XLY; SectorStacking.RS_20 := 5.8;
       SectorStacking.RS_40 := 4.2; SectorStacking.RS_60 := 3.1 |} ].

End Examples.

(** * Properties *)

(** ** The comparisons *)

Lemma Qgtb_true (x y : Q) : (x >? y) = true <-> y < x.
Proof.
  unfold Qgtb. rewrite negb_true_iff, <- not_true_iff_false, Qle_bool_iff.
  split; [apply Qnot_le_lt | apply Qlt_not_le].
Qed.

Lemma Qgtb_false (x y : Q) : (x >? y) = false <-> x <= y.
Proof.
  unfold Qgtb. rewrite negb_false_iff. apply Qle_bool_iff.
Qed.

Lemma Qltb_true (x y : Q) : (x <? y) = true <-> x < y.
Proof. apply (Qgtb_true y x). Qed.

Lemma Qltb_false (x y : Q) : (x <? y) = false <-> y <= x.
Proof. apply (Qgtb_false y x). Qed.

Lemma Qleb_true (x y : Q) : (x <=? y) = true <-> x <= y.
Proof. apply Qle_bool_iff. Qed.

Lemma Qleb_false (x y : Q) : (x <=? y) = false <-> y < x.
Proof.
  unfold Qleb. rewrite <- not_true_iff_false, Qle_bool_iff.
  split; [apply Qnot_le_lt | apply Qlt_not_le].
Qed.

Lemma Qgeb_true (x y : Q) : (x >=? y) = true <-> y <= x.
Proof. apply Qle_bool_iff. Qed.

Lemma round_down_le (x : Q) : round_down x <= x.
Proof. apply Qfloor_le. Qed.

(** A percentage bound is a bound on the amount when the total is positive. *)
Lemma pct_bound (total x k : Q) :
  0 < total -> x / total * 100 <= k -> x * 100 <= k * total.
Proof.
  intros Ht H.
  assert (E : x / total * total == x) by (field; lra).
  rewrite <- E. clear E. revert H. generalize (x / total). intros y Hy.
  nra.
Qed.

Lemma bound_pct (total x k : Q) :
  0 < total -> x * 100 <= k * total -> x / total * 100 <= k.
Proof.
  intros Ht H.
  assert (E : x / total * total == x) by (field; lra).
  rewrite <- E in H. clear E. revert H. generalize (x / total). intros y Hy.
  nra.
Qed.

(** ** Position sizing *)

Section SizingFacts.

Import Sizing.

Lemma max_risk_pct_range (t : position_type) (c : conviction_level) :
  0 < max_risk_pct t c /\ max_risk_pct t c <= 0.03.
Proof. destruct t, c; simpl; split; lra. Qed.

Lemma max_dollar_risk_range (i : sizing_input) :
  0 < portfolio_total_value i ->
  0 <= max_dollar_risk i /\ max_dollar_risk i <= 0.03 * portfolio_total_value i.
Proof.
  intros HP. unfold max_dollar_risk.
  destruct (max_risk_pct_range (position_type_of i) (conviction_of i)) as [H0 H3].
  split; nra.
Qed.

(** The risk-based count never costs more than the risk budget. *)
Lemma contracts_from_risk_within_budget (i : sizing_input) :
  0 < max_loss_per_spread i ->
  contracts_from_risk i * max_loss_per_spread i <= max_dollar_risk i.
Proof.
  intros HL. unfold contracts_from_risk.
  assert (E : max_dollar_risk i / max_loss_per_spread i * max_loss_per_spread i
              == max_dollar_risk i) by (field; lra).
  rewrite <- E at 2.
  apply Qmult_le_compat_r; [apply round_down_le | lra].
Qed.

Lemma spread_initial_le_risk (i : sizing_input) :
  (exists d, trade_structure_of i = DebitSpread d) \/ trade_structure_of i = CreditSpread ->
  initial_contracts i <= contracts_from_risk i.
Proof.
  unfold initial_contracts. intros [[d ->] | ->].
  - apply Q.le_min_r.
  - apply Qle_refl.
Qed.

(** Step 6 never raises the cost of the position above a non-negative
    budget that the unadjusted count respects. *)
Lemma reduction_within_budget (x r l m : Q) :
  0 < r -> r <= 1 -> 0 < l -> 0 <= m -> x * l <= m ->
  round_down (x * r) * l <= m.
Proof.
  intros Hr0 Hr1 Hl Hm Hx.
  apply Qle_trans with (x * r * l).
  - apply Qmult_le_compat_r; [apply round_down_le | lra].
  - destruct (Qlt_le_dec x 0) as [Hneg | Hpos]; nra.
Qed.

Lemma correlation_reduction_range (i : sizing_input) (r : Q) :
  correlation_reduction i = Some r -> 0 < r /\ r <= 1.
Proof.
  unfold correlation_reduction.
  destruct (current_position_correlation i) as [c|]; [|discriminate].
  destruct (c >? 0.8); [|destruct (c >? 0.7); [|destruct (c >? 0.5)]];
    intros E; inversion E; subst; split; lra.
Qed.

Lemma adjusted_within_budget (i : sizing_input) (m : Q) :
  0 < max_loss_per_spread i -> 0 <= m ->
  initial_contracts i * max_loss_per_spread i <= m ->
  adjusted_contracts i * max_loss_per_spread i <= m.
Proof.
  intros HL Hm H. unfold adjusted_contracts.
  destruct (correlation_reduction i) as [r|] eqn:E; [|exact H].
  destruct (correlation_reduction_range i r E).
  now apply reduction_within_budget.
Qed.

(** Step 7 only ever lowers the count. *)
Lemma concentration_limit_le (i : sizing_input) (c : Q) :
  fst (concentration_limit i c) <= c.
Proof.
  unfold concentration_limit.
  destruct (existing_exposure_pct i) as [e|]; [|apply Qle_refl].
  destruct (_ >? 0.15); simpl; [apply Q.le_min_l | apply Qle_refl].
Qed.

Lemma calculate_sizing_final (i : sizing_input) (r : PositionSizeResult) :
  calculate_sizing i = Sized r ->
  final_contracts r = fst (concentration_limit i (adjusted_contracts i)) /\
  total_risk r = final_contracts r * max_loss_per_spread i /\
  risk_pct r = total_risk r / portfolio_total_value i * 100 /\
  risk_pct r <= 5.
Proof.
  unfold calculate_sizing.
  destruct (concentration_limit i (adjusted_contracts i)) as [final capped].
  destruct (_ >? 5) eqn:E; [discriminate|].
  intros H. inversion H; subst; simpl. clear H.
  repeat split. now apply Qgtb_false.
Qed.

Lemma spread_final_within_budget (i : sizing_input) :
  0 < portfolio_total_value i -> 0 < max_loss_per_spread i ->
  (exists d, trade_structure_of i = DebitSpread d) \/ trade_structure_of i = CreditSpread ->
  fst (concentration_limit i (adjusted_contracts i)) * max_loss_per_spread i
    <= max_dollar_risk i.
Proof.
  intros HP HL Hs.
  destruct (max_dollar_risk_range i HP) as [Hm0 _].
  apply Qle_trans with (adjusted_contracts i * max_loss_per_spread i).
  - apply Qmult_le_compat_r; [apply concentration_limit_le | lra].
  - apply adjusted_within_budget; [assumption..|].
    apply Qle_trans with (contracts_from_risk i * max_loss_per_spread i).
    + apply Qmult_le_compat_r; [now apply spread_initial_le_risk | lra].
    + now apply contracts_from_risk_within_budget.
Qed.

(** C1.  With a positive portfolio value and a positive maximum loss per
    unit, every result calculate_sizing returns has dollar risk (final
    count times maximum loss per unit) of at most 5% of the portfolio
    value, whatever the classification, conviction, structure, correlation
    and existing exposure.  For option spreads the sizer always returns a
    result, and its risk is within the risk budget of Step 4. *)
Theorem sizing_risk_at_most_5pct (i : sizing_input) :
  0 < portfolio_total_value i ->
  0 < max_loss_per_spread i ->
  (forall r, calculate_sizing i = Sized r ->
     final_contracts r * max_loss_per_spread i <= 0.05 * portfolio_total_value i) /\
  ((exists d, trade_structure_of i = DebitSpread d) \/ trade_structure_of i = CreditSpread ->
   exists r, calculate_sizing i = Sized r /\
             final_contracts r * max_loss_per_spread i <= max_dollar_risk i).
Proof.
  intros HP HL. split.
  - intros r Hr.
    destruct (calculate_sizing_final i r Hr) as (_ & Hrisk & Hpct & H5).
    rewrite Hpct, Hrisk in H5.
    apply pct_bound in H5; [lra | exact HP].
  - intros Hs.
    pose proof (spread_final_within_budget i HP HL Hs) as Hb.
    destruct (max_dollar_risk_range i HP) as [_ H3].
    unfold calculate_sizing.
    destruct (concentration_limit i (adjusted_contracts i)) as [final capped].
    simpl in Hb.
    destruct (_ >? 5) eqn:E.
    + apply Qgtb_true in E. exfalso.
      assert (final * max_loss_per_spread i / portfolio_total_value i * 100 <= 3).
      { apply bound_pct; [exact HP | lra]. }
      lra.
    + eexists. split; [reflexivity | exact Hb].
Qed.

Lemma sizing_risk_at_most_5pct_witness :
  (forall r, calculate_sizing nvda_vertical = Sized r ->
     final_contracts r * 1200 <= 0.05 * 100000) /\
  ((exists d, DebitSpread 1200 = DebitSpread d) \/ DebitSpread 1200 = CreditSpread ->
   exists r, calculate_sizing nvda_vertical = Sized r /\
             final_contracts r * 1200 <= max_dollar_risk nvda_vertical).
Proof.
  apply (sizing_risk_at_most_5pct nvda_vertical); reflexivity.
Defined.

(** The 5% guard of Step 8 is live: a stock position sized by allocation
    alone can carry more than 5% risk, and is then aborted. *)
Lemma stock_over_risk_aborts :
  calculate_sizing stock_over_risk = ABORT_RISK_EXCEEDS_5.
Proof. vm_compute. reflexivity. Qed.

(** The speculative example: the risk-based count is 0, so Steps 5 to 8
    leave no contract and recommend against the position (the console
    example goes on to 1 contract by halving the loss estimate, a step the
    procedure does not have). *)
Lemma amd_short_strangle_too_small :
  contracts_from_risk amd_short_strangle == 0 /\
  exists r, calculate_sizing amd_short_strangle = Sized r /\
            final_contracts r == 0 /\ recommended r = POSITION_TOO_SMALL.
Proof.
  split; [reflexivity|].
  eexists. split; [vm_compute; reflexivity|]. split; reflexivity.
Qed.

(** C7, as stated, fails: for the stock position the allocation-based
    count is 300 shares and the risk-based count 250, and Step 5 keeps 300;
    calculate_sizing returns the 300 shares. *)
Lemma initial_contracts_not_always_min :
  ~ (forall i a, contracts_from_allocation i = Some a ->
       initial_contracts i == Qmin a (contracts_from_risk i)).
Proof.
  intros H.
  specialize (H stock_round_lot (round_lot (dollar_allocation stock_round_lot / 30))
                eq_refl).
  vm_compute in H. discriminate H.
Qed.

Lemma stock_round_lot_sized :
  exists r, calculate_sizing stock_round_lot = Sized r /\
            final_contracts r == 300 /\ contracts_from_risk stock_round_lot == 250.
Proof. eexists. split; [vm_compute; reflexivity|]. split; reflexivity. Qed.

(** C7, amended.  For a debit spread the count of Step 5 is the minimum of
    the allocation-based and the risk-based count, each rounded down, so
    the risk-based count binds whenever it is the smaller; a credit spread
    is sized by the risk-based count alone.  For the NVDA call vertical
    (core, HIGH, $1,200 maximum loss per spread, $100,000 portfolio) the
    two counts are 8 and 2 and the final size is 2. *)
Theorem debit_spread_takes_minimum (i : sizing_input) (d : Q) :
  trade_structure_of i = DebitSpread d ->
  contracts_from_allocation i = Some (round_down (dollar_allocation i / d)) /\
  initial_contracts i
    == Qmin (round_down (dollar_allocation i / d)) (contracts_from_risk i) /\
  (contracts_from_risk i <= round_down (dollar_allocation i / d) ->
   initial_contracts i == contracts_from_risk i) /\
  (forall j, trade_structure_of j = CreditSpread ->
             initial_contracts j = contracts_from_risk j) /\
  (contracts_from_allocation nvda_vertical = Some (round_down (10000 / 1200)) /\
   round_down (10000 / 1200) == 8 /\
   contracts_from_risk nvda_vertical == 2 /\
   exists r, calculate_sizing nvda_vertical = Sized r /\ final_contracts r == 2).
Proof.
  intros Hd. unfold contracts_from_allocation, initial_contracts. rewrite Hd.
  split; [reflexivity|]. split; [reflexivity|]. split.
  - intros Hle. now apply Q.min_r.
  - split.
    + intros j Hj. unfold initial_contracts. now rewrite Hj.
    + split; [|split; [reflexivity|split; [reflexivity|]]].
      * reflexivity.
      * eexists. split; [vm_compute; reflexivity | reflexivity].
Qed.

Lemma debit_spread_takes_minimum_witness :
  initial_contracts nvda_vertical
    == Qmin (round_down (dollar_allocation nvda_vertical / 1200))
            (contracts_from_risk nvda_vertical).
Proof.
  exact (proj1 (proj2 (debit_spread_takes_minimum nvda_vertical 1200 eq_refl))).
Defined.

End SizingFacts.

(** ** Risk budget tables of the sizer and of the checklist *)

(** C10, as stated, fails: core with LOW conviction is budgeted 1% by the
    sizer and allowed 2% by SECTION 4 of the checklist. *)
Lemma risk_tables_differ :
  ~ (forall t c, Sizing.max_risk_pct t c * 100 == Gate.max_risk_allowed t c).
Proof.
  intros H. specialize (H core LOW). vm_compute in H. discriminate H.
Qed.

(** C10, amended.  For every classification and conviction the maximum
    risk the checklist allows is at least the maximum risk the sizer
    budgets; the two agree exactly for core with HIGH or MODERATE
    conviction and for speculative with HIGH conviction. *)
Theorem gate_risk_limit_covers_sizer_limit (t : position_type) (c : conviction_level) :
  Sizing.max_risk_pct t c * 100 <= Gate.max_risk_allowed t c /\
  (Sizing.max_risk_pct t c * 100 == Gate.max_risk_allowed t c <->
   (t = core /\ (c = HIGH \/ c = MODERATE)) \/ (t = speculative /\ c = HIGH)).
Proof.
  split.
  - destruct t, c; simpl; lra.
  - split.
    + destruct t, c; simpl; intros H; auto; vm_compute in H; discriminate H.
    + intros [[-> [-> | ->]] | [-> ->]]; reflexivity.
Qed.

(** ** Market disposition *)

Section DispositionFacts.

Import Disposition.

Lemma determine_disposition_bands (s : Z) :
  determine_disposition s =
    if (5 <=? s)%Z then STRONG_BULL
    else if (2 <=? s)%Z then BULL
    else if (-1 <=? s)%Z then NEUTRAL
    else if (-4 <=? s)%Z then BEAR
    else STRONG_BEAR.
Proof.
  unfold determine_disposition. rewrite !Z.geb_leb. reflexivity.
Qed.

(** Step 5 and the Score Interpretation table agree on -10 .. 10 except at
    5, 6, -5 and -6. *)
Lemma step5_against_table (s : Z) :
  (-10 <= s <= 10)%Z ->
  (score_interpretation s = Some (determine_disposition s) <->
   s <> 5%Z /\ s <> 6%Z /\ s <> (-5)%Z /\ s <> (-6)%Z).
Proof.
  intros Hs.
  assert (Hcases : In s [-10; -9; -8; -7; -6; -5; -4; -3; -2; -1; 0;
                         1; 2; 3; 4; 5; 6; 7; 8; 9; 10]%Z).
  { simpl. lia. }
  simpl in Hcases.
  repeat (destruct Hcases as [<- | Hcases];
          [vm_compute; split; [intros H; try discriminate H; repeat split; discriminate
                              | intros (H5 & H6 & H5' & H6'); try reflexivity;
                                congruence] |]).
  contradiction.
Qed.

(** C3.  Where Step 5 leaves the bands of the claim (and of the Score
    Interpretation table of the task): a total score of 5 or 6 is classed
    STRONG_BULL with delta target +60, not BULL, and -5 or -6 STRONG_BEAR
    with -60, not BEAR.  A total score of 8, as in the console example, is
    STRONG_BULL with delta target +60 in both. *)
Theorem step5_bands_start_at_5 :
  determine_disposition 5 = STRONG_BULL /\
  recommended_delta_target (determine_disposition 5) = 60%Z /\
  score_interpretation 5 = Some BULL /\
  determine_disposition 6 = STRONG_BULL /\
  score_interpretation 6 = Some BULL /\
  determine_disposition (-5) = STRONG_BEAR /\
  recommended_delta_target (determine_disposition (-5)) = (-60)%Z /\
  score_interpretation (-5) = Some BEAR /\
  determine_disposition (-6) = STRONG_BEAR /\
  score_interpretation (-6) = Some BEAR /\
  total_score example_market = 8%Z /\
  determine_disposition 8 = STRONG_BULL /\
  recommended_delta_target (determine_disposition 8) = 60%Z.
Proof. repeat split; vm_compute; reflexivity. Qed.

End DispositionFacts.

(** ** Profit mechanism *)

Section MechanismFacts.

Import Mechanism.

(** C8.  When earnings fall within 7 days, or the correlation with an
    existing position is above 0.8, or the technical setup quality score is
    below 5, fit_mechanism answers NO_EDGE whatever the decision tree of
    Step 3 matched. *)
Theorem overrides_force_no_edge
    (conflicts : mechanism -> Disposition.market_disposition -> bool)
    (t : ticker_input) :
  (exists d, days_to_earnings t = Some d /\ (d <= 7)%Z) \/
  (exists c, In c (correlation_with_existing t) /\ 0.8 < c) \/
  technical_quality_score t < 5 ->
  fit_mechanism conflicts t = NO_EDGE.
Proof.
  intros H. unfold fit_mechanism.
  assert (E : override_to_no_edge conflicts t (match_mechanism t) = true).
  { unfold override_to_no_edge.
    destruct H as [(d & Hd & Hle) | [(c & Hin & Hc) | Hq]].
    - unfold earnings_within. rewrite Hd.
      apply Z.leb_le in Hle. rewrite Hle. reflexivity.
    - assert (Hex : existsb (fun c => c >? 0.8) (correlation_with_existing t) = true).
      { apply existsb_exists. exists c. split; [exact Hin | now apply Qgtb_true]. }
      rewrite Hex. rewrite !orb_true_r. reflexivity.
    - apply Qltb_true in Hq. rewrite Hq. rewrite !orb_true_r. reflexivity. }
  rewrite E. reflexivity.
Qed.

Lemma overrides_force_no_edge_witness :
  match_mechanism earnings_in_blackout = EARNINGS_VOLATILITY /\
  fit_mechanism (fun _ _ => false) earnings_in_blackout = NO_EDGE.
Proof.
  split; [reflexivity|].
  apply overrides_force_no_edge.
  left. exists 5%Z. split; [reflexivity | lia].
Defined.

End MechanismFacts.

(** ** Liquidity *)

Section LiquidityFacts.

Import Liquidity.

Lemma tier_over_1 (sp : Q) : 1 < sp -> tier_of sp = UNACCEPTABLE.
Proof.
  intros H. unfold tier_of.
  assert (H1 : (sp <=? 0.2) = false) by (apply Qleb_false; lra).
  assert (H2 : (sp <=? 0.5) = false) by (apply Qleb_false; lra).
  assert (H3 : (sp <=? 1.0) = false) by (apply Qleb_false; lra).
  now rewrite H1, H2, H3.
Qed.

(** The primary rule of Step 3 rejects every spread above 0.5% of mid. *)
Lemma primary_rule_rejects (c : option_contract) (stock_check : option stock_quote)
    (position_size : Q) :
  0.5 < spread_pct c ->
  approved (check_contract c stock_check position_size) = false.
Proof.
  intros H. unfold check_contract.
  destruct (mid_price c >? 0); [|reflexivity].
  simpl. unfold step3_rejects.
  apply Qgtb_true in H. rewrite H. reflexivity.
Qed.

(** C5.  A contract whose spread is above 1.0% of mid is rejected, whatever
    its volume, open interest, depth and recency; when it has a valid
    market the 1.0% rules of Step 3 and Step 11 are among the reasons; and
    a structure with such a leg is not approved. *)
Theorem spread_above_cap_rejected (c : option_contract)
    (stock_check : option stock_quote) (position_size : Q)
    (legs : list option_contract) :
  1 < spread_pct c ->
  approved (check_contract c stock_check position_size) = false /\
  (forall k, check_contract c stock_check position_size = Checked k ->
             In SpreadUnacceptable (rejections k) /\
             In AutoSpreadOver1 (rejections k)) /\
  (In c legs -> check_liquidity legs stock_check position_size = false).
Proof.
  intros H.
  assert (Hrej : approved (check_contract c stock_check position_size) = false).
  { apply primary_rule_rejects. lra. }
  split; [exact Hrej|]. split.
  - unfold check_contract. destruct (mid_price c >? 0); [|discriminate].
    intros k Hk. inversion Hk; subst; simpl. clear Hk.
    unfold step3_rejects, step11_rejects.
    rewrite (tier_over_1 _ H).
    assert (H1 : (spread_pct c >? 1.0) = true) by (apply Qgtb_true; lra).
    rewrite H1. split.
    + apply in_or_app. left. apply in_or_app. right. simpl. now left.
    + do 6 (apply in_or_app; right). simpl. now left.
  - intros Hin. unfold check_liquidity.
    apply not_true_iff_false. intros Hall.
    rewrite forallb_forall in Hall. specialize (Hall c Hin).
    rewrite Hrej in Hall. discriminate Hall.
Qed.

Lemma spread_above_cap_rejected_witness :
  1 < spread_pct nvda_520_call /\
  liquidity_score nvda_520_call (spread_pct nvda_520_call) 2 = 80%Z /\
  approved (check_contract nvda_520_call None 2) = false.
Proof.
  split; [reflexivity|]. split; [reflexivity|].
  apply (spread_above_cap_rejected nvda_520_call None 2 []). reflexivity.
Defined.

(** C6.  The leg of the PASS example (bid 28.40, ask 28.60, volume 8,524,
    open interest 15,234, last trade 2 minutes ago, 2 contracts): its spread
    is between 0.5% and 1.0% of mid; the procedure attaches the 0.5-1.0%
    warning, but the primary rule of Step 3 rejects it and the tier is POOR,
    not ACCEPTABLE. *)
Theorem sub_cap_spread_rejected_by_primary_rule :
  0.5 < spread_pct nvda_500_call /\ spread_pct nvda_500_call < 1.0 /\
  exists k, check_contract nvda_500_call None 2 = Checked k /\
            rejections k = [SpreadTooWide] /\
            tier k = POOR /\
            In WarnSpread05to10 (warnings k) /\
            approved (Checked k) = false.
Proof.
  split; [reflexivity|]. split; [reflexivity|].
  eexists. split; [reflexivity|]. simpl.
  split; [vm_compute; reflexivity|]. split; [vm_compute; reflexivity|].
  split; [vm_compute; auto | vm_compute; reflexivity].
Qed.

End LiquidityFacts.

(** ** Beta weighting *)

Section BetaFacts.

Import BetaWeighting.

Lemma weigh_with_market_beta (rows : list csv_row) (spy_price : Q) :
  weigh (map with_market_beta rows) spy_price = weigh rows spy_price.
Proof.
  induction rows as [|r rest IH]; [reflexivity|].
  simpl. rewrite IH. reflexivity.
Qed.

Lemma weigh_skips_missing_delta (pre post : list csv_row) (r : csv_row)
    (spy_price total : Q) (warned : list string) :
  position_delta r = None ->
  0 < stock_price r ->
  weigh (pre ++ post) spy_price = inr (total, warned) ->
  exists warned', weigh (pre ++ r :: post) spy_price = inr (total, warned') /\
                  In (ticker r) warned'.
Proof.
  intros Hd Hp. revert total warned.
  induction pre as [|p pre IH]; simpl; intros total warned H.
  - apply Qleb_false in Hp. rewrite Hp, H, Hd.
    eexists. split; [reflexivity | now left].
  - destruct (stock_price p <=? 0); [discriminate|].
    destruct (weigh (pre ++ post) spy_price) as [e | [t w]]; [discriminate|].
    destruct (IH t w eq_refl) as (w' & Hw & Hin). rewrite Hw.
    destruct (position_delta p); inversion H; subst;
      eexists; (split; [reflexivity|]); simpl; auto.
Qed.

Lemma weigh_rejects_bad_price (rows : list csv_row) (r : csv_row) (spy_price : Q) :
  In r rows -> stock_price r <= 0 ->
  exists e, weigh rows spy_price = inl e.
Proof.
  intros Hin Hp. induction rows as [|p rest IH]; [contradiction|].
  simpl. destruct (stock_price p <=? 0) eqn:E; [eexists; reflexivity|].
  destruct Hin as [-> | Hin].
  - apply Qleb_false in E. lra.
  - destruct (IH Hin) as [e He]. rewrite He. eexists; reflexivity.
Qed.

(** C9, as stated, fails: a portfolio with an empty beta and an empty
    position_delta is not rejected; a total is computed. *)
Lemma missing_fields_do_not_abort :
  ~ (forall rows spy_price,
       (exists r, In r rows /\ (beta r = None \/ position_delta r = None)) ->
       exists e, calc_beta_weighting rows spy_price = Rejected e).
Proof.
  intros H.
  destruct (H portfolio_with_gaps 450) as [e He].
  - eexists. split; [right; left; reflexivity | left; reflexivity].
  - vm_compute in He. discriminate He.
Qed.

(** C9, amended.  In the beta weighting an empty beta is weighted as the
    market beta 1.0, a position with an empty position_delta is skipped
    with a warning while the total of the other positions is still
    produced, and a zero or negative price rejects the computation. *)
Theorem beta_weighting_invalid_data (rows : list csv_row) (spy_price : Q) :
  calc_beta_weighting (map with_market_beta rows) spy_price
    = calc_beta_weighting rows spy_price /\
  (forall r, beta r = None -> beta (with_market_beta r) = Some 1.0) /\
  (forall pre post r s,
     rows = pre ++ r :: post ->
     position_delta r = None -> 0 < stock_price r ->
     calc_beta_weighting (pre ++ post) spy_price = Computed s ->
     exists s', calc_beta_weighting rows spy_price = Computed s' /\
                total_beta_weighted_delta s' = total_beta_weighted_delta s /\
                In (ticker r) (skipped s')) /\
  (forall r, In r rows -> stock_price r <= 0 ->
             exists e, calc_beta_weighting rows spy_price = Rejected e).
Proof.
  split; [|split; [|split]].
  - unfold calc_beta_weighting. now rewrite weigh_with_market_beta.
  - intros r Hr. unfold with_market_beta, beta_or_default. simpl. now rewrite Hr.
  - intros pre post r s -> Hd Hp. unfold calc_beta_weighting.
    destruct ((spy_price <? 300) || (spy_price >? 600)); [discriminate|].
    destruct (weigh (pre ++ post) spy_price) as [e | [t w]] eqn:E; [discriminate|].
    intros H. inversion H; subst; simpl. clear H.
    destruct (weigh_skips_missing_delta pre post r spy_price t w Hd Hp E)
      as (w' & Hw & Hin).
    rewrite Hw. eexists. split; [reflexivity|]. simpl. now split.
  - intros r Hin Hp. unfold calc_beta_weighting.
    destruct ((spy_price <? 300) || (spy_price >? 600)); [eexists; reflexivity|].
    destruct (weigh_rejects_bad_price rows r spy_price Hin Hp) as [e He].
    rewrite He. eexists; reflexivity.
Qed.

Lemma beta_weighting_invalid_data_witness :
  calc_beta_weighting (map with_market_beta portfolio_with_gaps) 450
    = calc_beta_weighting portfolio_with_gaps 450 /\
  exists s', calc_beta_weighting portfolio_with_gaps 450 = Computed s' /\
             In "TSLA"%string (skipped s').
Proof.
  pose proof (beta_weighting_invalid_data portfolio_with_gaps 450) as (H1 & _ & H3 & _).
  split; [exact H1|].
  edestruct (H3 (firstn 2 portfolio_with_gaps) []
                (Build_csv_row "TSLA" None 245.00 (Some 2.05)))
    as (s' & Hs & _ & Hin).
  - reflexivity.
  - reflexivity.
  - reflexivity.
  - vm_compute. reflexivity.
  - exists s'. split; [exact Hs | exact Hin].
Defined.

End BetaFacts.

(** ** Pre-trade checklist *)

Section GateFacts.

Import Gate.

Variable calculate_correlation : string -> string -> Q.

Lemma sections_in_order :
  map fst (sections calculate_correlation) =
    [LIQUIDITY; EVENT_RISK; CORRELATION; POSITION_SIZING; MARKET_ALIGNMENT;
     TECHNICAL_SETUP; RISK_REWARD; PORTFOLIO_RISK; EXECUTION].
Proof. reflexivity. Qed.

Lemma sections_distinct : NoDup (map fst (sections calculate_correlation)).
Proof.
  rewrite sections_in_order.
  repeat (constructor; [simpl; intuition discriminate|]). constructor.
Qed.

(** Up to the first failing section every section is evaluated, the failing
    one last. *)
Lemma run_sections_halts (ss : list (section_id * (gate_input -> section_outcome)))
    (i : gate_input) pre id check post reason :
  ss = pre ++ (id, check) :: post ->
  (forall e, In e pre -> failed (snd e i) = false) ->
  check i = FAIL reason ->
  run_sections ss i = map (fun e => (fst e, snd e i)) pre ++ [(id, FAIL reason)].
Proof.
  intros -> Hpre Hfail. induction pre as [|[n s] pre IH]; simpl.
  - now rewrite Hfail.
  - pose proof (Hpre (n, s) (or_introl eq_refl)) as Hs. simpl in Hs.
    destruct (s i) as [w|r]; [|discriminate Hs].
    f_equal. apply IH. intros e He. apply Hpre. now right.
Qed.

Lemma first_failure (ss : list (section_id * (gate_input -> section_outcome)))
    (i : gate_input) :
  (exists e, In e ss /\ failed (snd e i) = true) ->
  exists pre id check post reason,
    ss = pre ++ (id, check) :: post /\
    (forall e, In e pre -> failed (snd e i) = false) /\
    check i = FAIL reason.
Proof.
  induction ss as [|[n s] ss IH]; intros (e & Hin & He); [contradiction|].
  destruct (s i) as [w|r] eqn:Es.
  - destruct IH as (pre & id & check & post & reason & -> & Hpre & Hfail).
    { destruct Hin as [<- | Hin]; [simpl in He; rewrite Es in He; discriminate He|].
      now exists e. }
    exists ((n, s) :: pre), id, check, post, reason. repeat split; auto.
    intros e' [<- | He']; [simpl; now rewrite Es | now apply Hpre].
  - exists [], n, s, ss, r. repeat split; auto. intros e' [].
Qed.

Lemma halted_after_failure (l : list (section_id * section_outcome)) id reason :
  halted (l ++ [(id, FAIL reason)]) = true.
Proof.
  unfold halted. rewrite existsb_app. simpl. now rewrite orb_true_r.
Qed.

Lemma evaluated_run (i : gate_input) :
  evaluated (pre_trade_checklist calculate_correlation i)
    = run_sections (sections calculate_correlation) i.
Proof. reflexivity. Qed.

Lemma final_halted (i : gate_input) :
  halted (run_sections (sections calculate_correlation) i) = true ->
  final (pre_trade_checklist calculate_correlation i) = REJECTED.
Proof.
  intros H. unfold pre_trade_checklist.
  cbv beta zeta delta [final]. now rewrite H.
Qed.

(** C4.  The nine sections are evaluated in the order of the checklist.
    On every input on which some section fails, the sections up to the
    first failing one are evaluated, the failing one last, no section after
    it is evaluated, and the final status is REJECTED. *)
Theorem first_failing_section_halts (i : gate_input) :
  map fst (sections calculate_correlation) =
    [LIQUIDITY; EVENT_RISK; CORRELATION; POSITION_SIZING; MARKET_ALIGNMENT;
     TECHNICAL_SETUP; RISK_REWARD; PORTFOLIO_RISK; EXECUTION] /\
  ((exists e, In e (sections calculate_correlation) /\ failed (snd e i) = true) ->
   exists pre id check post reason,
    (sections calculate_correlation) = pre ++ (id, check) :: post /\
    (forall e, In e pre -> failed (snd e i) = false) /\
    check i = FAIL reason /\
    evaluated (pre_trade_checklist calculate_correlation i)
      = map (fun e => (fst e, snd e i)) pre ++ [(id, FAIL reason)] /\
    (forall e, In e post ->
               ~ In (fst e) (map fst (evaluated (pre_trade_checklist calculate_correlation i)))) /\
    final (pre_trade_checklist calculate_correlation i) = REJECTED).
Proof.
  split; [reflexivity|]. intros Hex.
  destruct (first_failure (sections calculate_correlation) i Hex)
    as (pre & id & check & post & reason & Hsplit & Hpre & Hfail).
  exists pre, id, check, post, reason.
  pose proof (run_sections_halts (sections calculate_correlation) i pre id check post reason
                Hsplit Hpre Hfail) as Hrun.
  split; [exact Hsplit|]. split; [exact Hpre|]. split; [exact Hfail|].
  split; [rewrite evaluated_run; exact Hrun|]. split.
  - intros e He Hin. rewrite evaluated_run, Hrun in Hin.
    rewrite map_app, map_map in Hin. simpl in Hin.
    pose proof sections_distinct as Hnd. rewrite Hsplit in Hnd.
    rewrite map_app in Hnd. simpl in Hnd.
    apply NoDup_remove in Hnd. destruct Hnd as [Hnd Hid].
    assert (Hpost : In (fst e) (map fst post)) by now apply in_map.
    apply in_app_or in Hin. destruct Hin as [Hin | [Heq | []]].
    + assert (Hnd' : NoDup (map fst pre ++ map fst post)) by exact Hnd.
      clear - Hin Hpost Hnd'.
      induction (map fst pre) as [|a l IH]; [contradiction|].
      simpl in Hnd'. inversion Hnd' as [|? ? Ha Hl]; subst.
      destruct Hin as [-> | Hin]; [|now apply IH].
      apply Ha. apply in_or_app. now right.
    + apply Hid. apply in_or_app. right. now rewrite Heq.
  - apply final_halted. rewrite Hrun. apply halted_after_failure.
Qed.

(** *** The ledger under approved commits *)

Lemma pct_of_compat (total x y : Q) : x == y -> pct_of total x == pct_of total y.
Proof. intros H. unfold pct_of. now rewrite H. Qed.

Lemma not_halted_all_pass (ss : list (section_id * (gate_input -> section_outcome)))
    (i : gate_input) :
  halted (run_sections ss i) = false ->
  forall e, In e ss -> failed (snd e i) = false.
Proof.
  induction ss as [|[n s] ss IH]; intros H e Hin; [contradiction|].
  simpl in H. destruct (s i) as [w|r] eqn:Es.
  - destruct Hin as [<- | Hin]; [simpl; now rewrite Es|].
    apply IH; [exact H | exact Hin].
  - discriminate H.
Qed.

Lemma filter_length_le (l : list bool) :
  (List.length (filter (fun b : bool => b) l) <= List.length l)%nat.
Proof. induction l as [|[] l IH]; simpl; lia. Qed.

Lemma all_items_checked (l : list bool) :
  Nat.eqb (List.length (filter (fun b : bool => b) l)) (List.length l) = true ->
  forallb (fun b : bool => b) l = true.
Proof.
  rewrite Nat.eqb_eq. induction l as [|[] l IH]; simpl; intros H; auto.
  pose proof (filter_length_le l). lia.
Qed.

(** What APPROVED says: no section failed and every item is checked. *)
Lemma approved_inv (i : gate_input) :
  final (pre_trade_checklist calculate_correlation i) = APPROVED ->
  (forall e, In e (sections calculate_correlation) -> failed (snd e i) = false) /\
  forallb (fun b : bool => b) (final_checklist calculate_correlation i) = true.
Proof.
  unfold pre_trade_checklist. cbv beta zeta delta [final].
  destruct (halted _) eqn:Hh; [discriminate|].
  destruct (Nat.eqb _ _) eqn:Hc; [|discriminate].
  intros _. split.
  - now apply not_halted_all_pass.
  - now apply all_items_checked.
Qed.

Lemma section3_loop_pass (i : gate_input) (ps : list existing_position)
    (w w' : list gate_warning) :
  section3_loop calculate_correlation i ps w = PASS w' ->
  forall p, In p ps -> ticker_of p = ticker i ->
            pct i (exposure p + position_value i) <= 15.
Proof.
  revert w. induction ps as [|q ps IH]; intros w H p Hin Hp; [contradiction|].
  simpl in H.
  destruct (String.eqb (ticker_of q) (ticker i)
            && (pct i (exposure q + position_value i) >? 15)) eqn:E1;
    [discriminate|].
  assert (Hrest : exists w0, section3_loop calculate_correlation i ps w0 = PASS w').
  { destruct (_ >? 0.8).
    - destruct (_ >? 25); [discriminate|]. eauto.
    - eauto. }
  destruct Hrest as [w0 Hrest].
  destruct Hin as [<- | Hin]; [|now apply (IH w0)].
  rewrite Hp, String.eqb_refl in E1. simpl in E1. now apply Qgtb_false.
Qed.

Lemma add_position_tickers (t : string) (v r : Q) (ps : list existing_position)
    (x : string) :
  In x (map ticker_of (add_position t v r ps)) <-> In x (map ticker_of ps) \/ x = t.
Proof.
  induction ps as [|p ps IH]; simpl.
  - intuition.
  - destruct (String.eqb (ticker_of p) t) eqn:E; simpl.
    + apply String.eqb_eq in E. intuition congruence.
    + rewrite IH. intuition.
Qed.

Lemma add_position_NoDup (t : string) (v r : Q) (ps : list existing_position) :
  NoDup (map ticker_of ps) -> NoDup (map ticker_of (add_position t v r ps)).
Proof.
  induction ps as [|p ps IH]; simpl; intros H.
  - constructor; [intros [] | constructor].
  - inversion H as [|? ? Hp Hps]; subst.
    destruct (String.eqb (ticker_of p) t) eqn:E; simpl.
    + apply String.eqb_eq in E. subst t. now constructor.
    + constructor; [|now apply IH].
      rewrite add_position_tickers. intros [Hin | Heq]; [now apply Hp|].
      apply eqb_neq in E. congruence.
Qed.

Lemma sum_where_add (f : string -> bool) (t : string) (v r : Q)
    (ps : list existing_position) :
  sum_where f (add_position t v r ps) == sum_where f ps + (if f t then v else 0).
Proof.
  induction ps as [|p ps IH]; simpl.
  - destruct (f t); ring.
  - destruct (String.eqb (ticker_of p) t) eqn:E; simpl.
    + apply String.eqb_eq in E. rewrite E. destruct (f t); ring.
    + destruct (f (ticker_of p)); rewrite IH; ring.
Qed.

Lemma risks_add (t : string) (v r : Q) (ps : list existing_position) :
  sum_of_all_open_position_risks (add_position t v r ps)
    == sum_of_all_open_position_risks ps + r.
Proof.
  induction ps as [|p ps IH]; simpl.
  - ring.
  - destruct (String.eqb (ticker_of p) t); simpl; [ring | rewrite IH; ring].
Qed.

Lemma sum_where_ext (f g : string -> bool) (ps : list existing_position) :
  (forall p, In p ps -> f (ticker_of p) = g (ticker_of p)) ->
  sum_where f ps = sum_where g ps.
Proof.
  induction ps as [|p ps IH]; simpl; intros H; [reflexivity|].
  rewrite (H p (or_introl eq_refl)), IH; [reflexivity|].
  intros q Hq. apply H. now right.
Qed.

Lemma ticker_exposure_absent (ps : list existing_position) (t : string) :
  ~ In t (map ticker_of ps) -> ticker_exposure ps t == 0.
Proof.
  unfold ticker_exposure. induction ps as [|p ps IH]; simpl; intros H.
  - reflexivity.
  - destruct (String.eqb (ticker_of p) t) eqn:E.
    + apply String.eqb_eq in E. exfalso. apply H. now left.
    + apply IH. intros Hin. apply H. now right.
Qed.

Lemma ticker_exposure_unique (ps : list existing_position) (p : existing_position) :
  NoDup (map ticker_of ps) -> In p ps ->
  ticker_exposure ps (ticker_of p) == exposure p.
Proof.
  unfold ticker_exposure. induction ps as [|q ps IH]; simpl; intros Hnd Hin;
    [contradiction|].
  inversion Hnd as [|? ? Hq Hps]; subst.
  destruct Hin as [-> | Hin].
  - rewrite String.eqb_refl.
    rewrite (ticker_exposure_absent ps (ticker_of p) Hq). ring.
  - destruct (String.eqb (ticker_of q) (ticker_of p)) eqn:E.
    + apply String.eqb_eq in E. exfalso. apply Hq. rewrite E. now apply in_map.
    + now apply IH.
Qed.

(** C2.  Let the correlation be symmetric and the ledger satisfy its
    exposure limits (one row per ticker, aggregate open risk at most 15%,
    every held ticker at most 15%, the correlated group of every held
    ticker at most 25%).  If the checklist ends APPROVED, the ledger after
    the commit satisfies them again. *)
Theorem approved_commit_keeps_limits (i : gate_input) :
  (forall a b, calculate_correlation a b == calculate_correlation b a) ->
  exposure_limits calculate_correlation (portfolio i) ->
  final (pre_trade_checklist calculate_correlation i) = APPROVED ->
  gate_step calculate_correlation i = commit i /\
  exposure_limits calculate_correlation (commit i).
Proof.
  intros Hsym [Hnd Hrisk Hsingle Hgroup] Happ.
  split; [unfold gate_step; now rewrite Happ|].
  destruct (approved_inv i Happ) as [Hpass Hitems].
  (* the sections and the item the argument rests on *)
  assert (H3 : failed (section3 calculate_correlation i) = false).
  { apply (Hpass (CORRELATION, section3 calculate_correlation)).
    simpl. auto. }
  assert (H4 : failed (section4 i) = false).
  { apply (Hpass (POSITION_SIZING, section4)). simpl. auto. }
  assert (H8 : failed (section8 i) = false).
  { apply (Hpass (PORTFOLIO_RISK, section8)). simpl. auto 10. }
  assert (Hcorr : forall p, In p (positions (portfolio i)) ->
                    calculate_correlation (ticker i) (ticker_of p) < 0.8).
  { unfold final_checklist in Hitems. cbn [forallb] in Hitems.
    repeat (apply andb_true_iff in Hitems; destruct Hitems as [? Hitems]).
    match goal with H : forallb _ (positions _) = true |- _ =>
      rewrite forallb_forall in H; intros p Hp; apply Qltb_true, H, Hp end. }
  clear Hitems Hpass Happ.
  (* SECTION 3: the row of the ticker plus the new position is within 15% *)
  assert (Hsame : forall p, In p (positions (portfolio i)) ->
                    ticker_of p = ticker i ->
                    pct i (exposure p + position_value i) <= 15).
  { unfold section3 in H3.
    destruct (section3_loop _ _ _ _) as [w|] eqn:E3; [|discriminate].
    exact (section3_loop_pass i _ _ _ E3). }
  (* SECTION 4: the new position alone is within 10% *)
  assert (Hnew : pct i (position_value i) <= 10).
  { unfold section4 in H4.
    destruct (_ >? max_pct _) eqn:E4; [discriminate|].
    apply Qgtb_false in E4. destruct (position_type_of i); simpl in E4; lra. }
  (* SECTION 8: open risk with the new position is within 15% *)
  assert (Hbudget : total_risk_pct i <= 15).
  { unfold section8 in H8.
    destruct (_ >? 15) eqn:E8; [discriminate | now apply Qgtb_false]. }
  clear H3 H4 H8.
  set (ps := positions (portfolio i)) in *.
  set (total := portfolio_total_value (portfolio i)) in *.
  assert (Hticker : forall t,
            In t (map ticker_of (positions (commit i))) ->
            single_ticker_pct (commit i) t <= 15).
  { intros t Ht. unfold single_ticker_pct, commit. simpl. fold ps total.
    unfold ticker_exposure. rewrite (pct_of_compat _ _ _ (sum_where_add _ _ _ _ _)).
    simpl in Ht. fold ps in Ht. rewrite add_position_tickers in Ht.
    destruct (String.eqb (ticker i) t) eqn:E.
    - apply String.eqb_eq in E. subst t.
      destruct (in_dec string_dec (ticker i) (map ticker_of ps)) as [Hin | Hout].
      + apply in_map_iff in Hin. destruct Hin as (p & Hp & Hin).
        rewrite <- Hp.
        rewrite (pct_of_compat _ _ (exposure p + position_value i)).
        * now apply Hsame.
        * fold (ticker_exposure ps (ticker_of p)).
          now rewrite (ticker_exposure_unique ps p Hnd Hin).
      + rewrite (pct_of_compat _ _ (position_value i)).
        * unfold pct in Hnew. fold total in Hnew. lra.
        * fold (ticker_exposure ps (ticker i)).
          rewrite (ticker_exposure_absent ps (ticker i) Hout). ring.
    - apply eqb_neq in E.
      rewrite (pct_of_compat _ _ (ticker_exposure ps t)).
      + apply Hsingle. destruct Ht as [Ht | Ht]; [exact Ht | congruence].
      + unfold ticker_exposure. ring. }
  constructor.
  - simpl. now apply add_position_NoDup.
  - unfold aggregate_open_risk_pct, commit. simpl. fold ps total.
    rewrite (pct_of_compat _ _ _ (risks_add _ _ _ _)). exact Hbudget.
  - exact Hticker.
  - intros t Ht. unfold held in Ht.
    unfold correlated_group_pct, commit. simpl. fold ps total.
    unfold group_exposure.
    rewrite (pct_of_compat _ _ _ (sum_where_add _ _ _ _ _)).
    destruct (String.eqb (ticker i) t) eqn:E.
    + (* the group of the traded ticker is its own row *)
      apply String.eqb_eq in E. subst t.
      apply Qle_trans with 15; [|lra].
      specialize (Hticker (ticker i) Ht).
      unfold single_ticker_pct, commit in Hticker. simpl in Hticker.
      fold ps total in Hticker. unfold ticker_exposure in Hticker.
      rewrite (pct_of_compat _ _ _ (sum_where_add _ _ _ _ _)) in Hticker.
      rewrite String.eqb_refl in Hticker.
      unfold in_group at 2. rewrite String.eqb_refl. simpl.
      rewrite (sum_where_ext (in_group calculate_correlation (ticker i))
                 (fun other => String.eqb other (ticker i)) ps); [exact Hticker|].
      intros p Hp. unfold in_group.
      assert (Hlow : (calculate_correlation (ticker i) (ticker_of p) >? 0.8) = false).
      { apply Qgtb_false. specialize (Hcorr p Hp). lra. }
      rewrite Hlow. apply orb_false_r.
    + (* the traded ticker joins no other group *)
      apply eqb_neq in E.
      simpl in Ht. fold ps in Ht. rewrite add_position_tickers in Ht.
      destruct Ht as [Ht | Ht]; [|congruence].
      assert (Hout : in_group calculate_correlation t (ticker i) = false).
      { unfold in_group. apply orb_false_iff. split; [now apply eqb_neq|].
        apply Qgtb_false. apply in_map_iff in Ht. destruct Ht as (p & Hp & Hin).
        specialize (Hcorr p Hin). rewrite Hp in Hcorr.
        rewrite (Hsym t (ticker i)). lra. }
      rewrite Hout.
      rewrite (pct_of_compat _ _ (group_exposure calculate_correlation ps t)).
      * now apply Hgroup.
      * unfold group_exposure. ring.
Qed.

End GateFacts.

Lemma example_correlation_symmetric (a b : string) :
  Gate.example_correlation a b == Gate.example_correlation b a.
Proof.
  unfold Gate.example_correlation. rewrite eqb_sym. reflexivity.
Qed.

Lemma approved_commit_keeps_limits_witness :
  Gate.final (Gate.pre_trade_checklist Gate.example_correlation Gate.nvda_trade)
    = Gate.APPROVED /\
  Gate.exposure_limits Gate.example_correlation (Gate.commit Gate.nvda_trade).
Proof.
  split; [reflexivity|].
  apply (approved_commit_keeps_limits Gate.example_correlation Gate.nvda_trade).
  - exact example_correlation_symmetric.
  - constructor.
    + simpl. constructor; [intros [] | constructor].
    + vm_compute. discriminate.
    + intros t [<- | []]. vm_compute. discriminate.
    + intros t [<- | []]. vm_compute. discriminate.
  - reflexivity.
Defined.

(** The item "Correlation: <0.8 with existing positions" of the final
    checklist carries the bound on correlated groups: the nine sections
    alone pass the CCC trade (its own group is at 20%), the final checklist
    rejects it, and committing it would raise the group of AAA to 34%. *)
Lemma sections_alone_do_not_bound_groups :
  Gate.exposure_limits Gate.chained_correlation (Gate.portfolio Gate.chained_trade) /\
  Gate.halted (Gate.run_sections (Gate.sections Gate.chained_correlation)
                                 Gate.chained_trade) = false /\
  Gate.final (Gate.pre_trade_checklist Gate.chained_correlation Gate.chained_trade)
    = Gate.REJECTED /\
  25 < Gate.correlated_group_pct Gate.chained_correlation
         (Gate.commit Gate.chained_trade) "AAA".
Proof.
  split; [|split; [|split]]; try reflexivity.
  constructor.
  - simpl. repeat (constructor; [simpl; intuition discriminate|]). constructor.
  - vm_compute. discriminate.
  - intros t [<- | [<- | []]]; vm_compute; discriminate.
  - intros t [<- | [<- | []]]; vm_compute; discriminate.
Qed.

Lemma first_failing_section_halts_witness :
  Gate.evaluated (Gate.pre_trade_checklist Gate.example_correlation Gate.xyz_trade)
    = [(Gate.LIQUIDITY, Gate.FAIL Gate.FailedLiquidity)] /\
  Gate.section2 Gate.xyz_trade = Gate.FAIL Gate.EarningsTooClose /\
  exists pre id check post,
    Gate.sections Gate.example_correlation = pre ++ (id, check) :: post /\
    Gate.final (Gate.pre_trade_checklist Gate.example_correlation Gate.xyz_trade)
      = Gate.REJECTED.
Proof.
  split; [reflexivity|]. split; [reflexivity|].
  destruct (proj2 (first_failing_section_halts Gate.example_correlation
                     Gate.xyz_trade))
    as (pre & id & check & post & reason & H1 & _ & _ & _ & _ & H6).
  - exists (Gate.LIQUIDITY, Gate.section1). split; [now left | reflexivity].
  - exists pre, id, check, post. now split.
Defined.

(** * Further properties of the procedures *)

(** Case analysis on the comparisons of a rule. *)
Ltac qcase :=
  repeat match goal with
  | |- context [Qgtb ?x ?y] =>
      let E := fresh "E" in
      destruct (Qgtb x y) eqn:E; [apply Qgtb_true in E | apply Qgtb_false in E]
  | |- context [Qltb ?x ?y] =>
      let E := fresh "E" in
      destruct (Qltb x y) eqn:E; [apply Qltb_true in E | apply Qltb_false in E]
  | |- context [Qleb ?x ?y] =>
      let E := fresh "E" in
      destruct (Qleb x y) eqn:E; [apply Qleb_true in E | apply Qleb_false in E]
  | |- context [Qgeb ?x ?y] =>
      let E := fresh "E" in
      destruct (Qgeb x y) eqn:E; [apply Qgeb_true in E | apply Qleb_false in E]
  end.

(** ** Market disposition: the signals *)

Section SignalFacts.

Import Disposition DispositionSteps.

(** X1.  The trend signal has the sign of SPY against its 200-day average:
    +1 to +3 above it, -1 to -3 below it, and CHOPPY (0) only when the two
    are equal. *)
Theorem trend_signal_follows_200_day_average (m : market_data) :
  (SMA_200 m < SPY m -> (1 <= trend_signal m <= 3)%Z) /\
  (SPY m < SMA_200 m -> (-3 <= trend_signal m <= -1)%Z) /\
  (SPY m == SMA_200 m -> trend_signal m = 0%Z).
Proof.
  unfold trend_signal.
  split; [|split]; intros H; qcase; simpl; try lia; exfalso; lra.
Qed.

Lemma trend_signal_follows_200_day_average_witness :
  (1 <= trend_signal example_market <= 3)%Z.
Proof.
  apply (proj1 (trend_signal_follows_200_day_average example_market)).
  reflexivity.
Defined.

(** X2.  The sector breadth signal is never 0: five or more sectors with a
    positive return score +1 or +2, four or fewer -1 or -2, and the MIXED
    branch of the rule is not reachable. *)
Theorem sector_signal_never_mixed (m : market_data) :
  sector_signal m <> 0%Z /\
  ((0 < sector_signal m)%Z <-> (5 <= bullish_sector_count m)%Z) /\
  (-2 <= sector_signal m <= 2)%Z.
Proof.
  unfold sector_signal.
  destruct (bullish_sector_count m >=? 7)%Z eqn:E7;
  destruct (bullish_sector_count m >=? 5)%Z eqn:E5;
  destruct (bullish_sector_count m <=? 2)%Z eqn:E2;
  destruct (bullish_sector_count m <=? 4)%Z eqn:E4;
  rewrite ?Z.geb_leb in *;
  rewrite ?Z.leb_le, ?Z.leb_gt in *; lia.
Qed.

Lemma signal_ranges (m : market_data) :
  (-3 <= trend_signal m <= 3)%Z /\ (-1 <= momentum_signal m <= 1)%Z /\
  (-2 <= vol_signal m <= 1)%Z /\ (-1 <= vix_trend m <= 1)%Z /\
  (-2 <= sector_signal m <= 2)%Z /\ (-1 <= leadership_signal m <= 1)%Z.
Proof.
  split; [unfold trend_signal; qcase; simpl; lia|].
  split; [unfold momentum_signal; qcase; lia|].
  split; [unfold vol_signal; qcase; simpl; lia|].
  split; [unfold vix_trend; qcase; lia|].
  split; [unfold sector_signal;
          destruct (bullish_sector_count m >=? 7)%Z;
          destruct (bullish_sector_count m >=? 5)%Z;
          destruct (bullish_sector_count m <=? 2)%Z;
          destruct (bullish_sector_count m <=? 4)%Z; lia|].
  unfold leadership_signal. destruct (top_sector m); lia.
Qed.

(** X3.  The six technical signals sum to between -10 and +9 (the console
    output's "out of 10 possible" is not reached on the upside); the
    economic overview adds between -3 and +3, and 0 when no indicators are
    provided. *)
Theorem total_score_range (m : market_data) (e : option economic_indicators) :
  (-10 <= total_score m - econ_signal m <= 9)%Z /\
  (-3 <= economic_overview e <= 3)%Z /\
  economic_overview None = 0%Z.
Proof.
  split; [|split; [|reflexivity]].
  - pose proof (signal_ranges m) as (H1 & H2 & H3 & H4 & H5 & H6).
    unfold total_score. lia.
  - destruct e as [x|]; simpl; [|lia].
    qcase; try lia; exfalso; lra.
Qed.

(** X4.  The disposition is monotone in the total score: a higher score
    never lowers the recommended delta target. *)
Theorem disposition_monotone (s1 s2 : Z) :
  (s1 <= s2)%Z ->
  (recommended_delta_target (determine_disposition s1)
   <= recommended_delta_target (determine_disposition s2))%Z.
Proof.
  intros H. rewrite !determine_disposition_bands.
  destruct (5 <=? s1)%Z eqn:A1; destruct (2 <=? s1)%Z eqn:A2;
  destruct (-1 <=? s1)%Z eqn:A3; destruct (-4 <=? s1)%Z eqn:A4;
  destruct (5 <=? s2)%Z eqn:B1; destruct (2 <=? s2)%Z eqn:B2;
  destruct (-1 <=? s2)%Z eqn:B3; destruct (-4 <=? s2)%Z eqn:B4;
  simpl; rewrite ?Z.leb_le, ?Z.leb_gt in *; lia.
Qed.

Lemma disposition_monotone_witness :
  (recommended_delta_target (determine_disposition 3)
   <= recommended_delta_target (determine_disposition 8))%Z.
Proof. apply disposition_monotone. lia. Defined.

Lemma aligned_at_most_all (signals : list Z) (total : Z) :
  (aligned_signals signals total <= List.length signals)%nat.
Proof.
  unfold aligned_signals.
  induction signals as [|s l IH]; simpl; [lia|].
  destruct (same_sign s total); simpl; lia.
Qed.

(** X5.  With the six technical signals the conviction of Step 6 is HIGH
    exactly when at least five signals have the sign of the total score,
    MODERATE when exactly four have, and LOW otherwise. *)
Theorem conviction_by_aligned_count (signals : list Z) (total : Z) :
  List.length signals = 6%nat ->
  let c := conviction_of_confidence (confidence signals total) in
  (c = HIGH <-> (5 <= aligned_signals signals total)%nat) /\
  (c = MODERATE <-> aligned_signals signals total = 4%nat) /\
  (c = LOW <-> (aligned_signals signals total <= 3)%nat).
Proof.
  intros Hlen. pose proof (aligned_at_most_all signals total) as Hle.
  unfold confidence. rewrite Hlen in *.
  destruct (aligned_signals signals total) as [|[|[|[|[|[|[|n]]]]]]];
    try lia; vm_compute;
    (repeat split; intros; try lia; try discriminate; try reflexivity).
Qed.

Lemma conviction_by_aligned_count_witness :
  aligned_signals (technical_signals example_market) 8 = 5%nat /\
  conviction_of_confidence (confidence (technical_signals example_market) 8) = HIGH.
Proof.
  split; [reflexivity|].
  apply (conviction_by_aligned_count (technical_signals example_market) 8 eq_refl).
  vm_compute. lia.
Defined.

End SignalFacts.

(** ** Profit mechanism: what a match implies *)

Section MatchFacts.

Import Mechanism Structure.

Lemma iv_rank_gt_inv (t : ticker_input) (x : Q) :
  iv_rank_gt t x = true -> exists r, iv_rank t = Some r /\ x < r.
Proof.
  unfold iv_rank_gt. destruct (iv_rank t) as [r|]; [|discriminate].
  intros H. exists r. split; [reflexivity | now apply Qgtb_true].
Qed.

Lemma iv_rank_lt_inv (t : ticker_input) (x : Q) :
  iv_rank_lt t x = true -> exists r, iv_rank t = Some r /\ r < x.
Proof.
  unfold iv_rank_lt. destruct (iv_rank t) as [r|]; [|discriminate].
  intros H. exists r. split; [reflexivity | now apply Qltb_true].
Qed.

Lemma uptrend_inv (t : ticker_input) :
  classify_trend t = STRONG_UPTREND \/ classify_trend t = UPTREND ->
  MA_200 t < MA_50 t /\ MA_50 t < price t.
Proof.
  unfold classify_trend. qcase; simpl; intros [H | H]; try discriminate H;
    split; lra.
Qed.

Lemma range_bound_inv (t : ticker_input) :
  classify_trend t = RANGE_BOUND -> price t <= MA_200 t.
Proof.
  unfold classify_trend. qcase; simpl; intros H; try discriminate H; lra.
Qed.

Lemma momentum_inv (t : ticker_input) :
  classify_momentum t = STRONG_MOMENTUM \/ classify_momentum t = MODERATE_MOMENTUM ->
  5 < stock_rs_vs_spy t.
Proof.
  unfold classify_momentum. qcase; intros [H | H]; try discriminate H; lra.
Qed.

Lemma overpriced_inv (t : ticker_input) :
  classify_vol_premium t = OVERPRICED -> realized_vol t < implied_vol t * 0.8.
Proof.
  unfold classify_vol_premium.
  destruct (iv_rank_gt t 50); destruct (iv_rank_lt t 30); qcase; simpl;
    intros H; try discriminate H; lra.
Qed.

Lemma vrp_match_inv (t : ticker_input) :
  match_mechanism t = VRP ->
  (exists r, iv_rank t = Some r /\ 60 < r) /\
  realized_vol t < implied_vol t * 0.8 /\
  (classify_trend t = RANGE_BOUND \/ classify_trend t = WEAK_UPTREND).
Proof.
  unfold match_mechanism.
  destruct (earnings_within t 30 && iv_rank_lt t 40); [discriminate|].
  destruct (_ && iv_rank_gt t 60 && _) eqn:E2.
  - intros _. apply andb_prop in E2. destruct E2 as [E2 Et].
    apply andb_prop in E2. destruct E2 as [Ev Ei].
    split; [now apply iv_rank_gt_inv|]. split.
    + apply overpriced_inv. destruct (classify_vol_premium t);
        [reflexivity | discriminate Ev | discriminate Ev].
    + destruct (classify_trend t); auto; discriminate Et.
  - clear E2. destruct (_ && _ && _); [discriminate|].
    destruct (_ && _); discriminate.
Qed.

Lemma momentum_match_inv (t : ticker_input) :
  match_mechanism t = MOMENTUM_DRIFT ->
  (classify_momentum t = STRONG_MOMENTUM \/ classify_momentum t = MODERATE_MOMENTUM) /\
  (classify_trend t = STRONG_UPTREND \/ classify_trend t = UPTREND) /\
  (disposition t = Disposition.STRONG_BULL \/ disposition t = Disposition.BULL).
Proof.
  unfold match_mechanism.
  destruct (earnings_within t 30 && iv_rank_lt t 40); [discriminate|].
  destruct (_ && iv_rank_gt t 60 && _); [discriminate|].
  destruct (_ && _ && _) eqn:E3.
  - intros _. apply andb_prop in E3. destruct E3 as [E3 Ed].
    apply andb_prop in E3. destruct E3 as [Em Et].
    split; [|split].
    + destruct (classify_momentum t); auto; discriminate Em.
    + destruct (classify_trend t); auto; discriminate Et.
    + destruct (disposition t); auto; discriminate Ed.
  - clear E3. destruct (_ && _); discriminate.
Qed.

Lemma mean_reversion_match_inv (t : ticker_input) :
  match_mechanism t = MEAN_REVERSION ->
  classify_trend t = RANGE_BOUND /\ 2 < price_deviation_sigma t.
Proof.
  unfold match_mechanism.
  destruct (earnings_within t 30 && iv_rank_lt t 40); [discriminate|].
  destruct (_ && iv_rank_gt t 60 && _); [discriminate|].
  destruct (_ && _ && _); [discriminate|].
  destruct (_ && _) eqn:E4; [|discriminate].
  intros _. apply andb_prop in E4. destruct E4 as [Et Ep].
  split; [|now apply Qgtb_true].
  destruct (classify_trend t); auto; discriminate Et.
Qed.

Lemma earnings_match_inv (t : ticker_input) :
  match_mechanism t = EARNINGS_VOLATILITY ->
  earnings_within t 30 = true /\ iv_rank_lt t 40 = true.
Proof.
  unfold match_mechanism.
  destruct (earnings_within t 30 && iv_rank_lt t 40) eqn:E1.
  - intros _. now apply andb_prop in E1.
  - clear E1. destruct (_ && iv_rank_gt t 60 && _); [discriminate|].
    destruct (_ && _ && _); [discriminate|].
    destruct (_ && _); discriminate.
Qed.

(** X6.  What each match of the Step 3 decision tree implies.  An
    earnings-volatility or VRP match needs an IV rank (below 40, above 60);
    VRP needs realized volatility under 80% of implied; momentum drift needs
    relative strength above 5%, price above the 50-day above the 200-day
    average and a bullish disposition; mean reversion is only matched with
    the price at or below its 200-day average. *)
Theorem match_mechanism_preconditions (t : ticker_input) :
  (match_mechanism t = EARNINGS_VOLATILITY ->
   earnings_within t 30 = true /\ exists r, iv_rank t = Some r /\ r < 40) /\
  (match_mechanism t = VRP ->
   (exists r, iv_rank t = Some r /\ 60 < r) /\
   realized_vol t < implied_vol t * 0.8 /\
   (classify_trend t = RANGE_BOUND \/ classify_trend t = WEAK_UPTREND)) /\
  (match_mechanism t = MOMENTUM_DRIFT ->
   5 < stock_rs_vs_spy t /\ MA_200 t < MA_50 t /\ MA_50 t < price t /\
   (disposition t = Disposition.STRONG_BULL \/ disposition t = Disposition.BULL)) /\
  (match_mechanism t = MEAN_REVERSION ->
   classify_trend t = RANGE_BOUND /\ price t <= MA_200 t /\
   2 < price_deviation_sigma t).
Proof.
  split; [|split; [|split]].
  - intros H. destruct (earnings_match_inv t H) as [He Hi].
    split; [exact He | now apply iv_rank_lt_inv].
  - apply vrp_match_inv.
  - intros H. destruct (momentum_match_inv t H) as (Hm & Ht & Hd).
    destruct (uptrend_inv t Ht) as [H1 H2].
    split; [now apply momentum_inv|]. auto.
  - intros H. destruct (mean_reversion_match_inv t H) as [Ht Hp].
    split; [exact Ht|]. split; [now apply range_bound_inv | exact Hp].
Qed.

Lemma match_mechanism_preconditions_witness :
  earnings_within earnings_in_blackout 30 = true /\
  exists r, iv_rank earnings_in_blackout = Some r /\ r < 40.
Proof.
  apply (proj1 (match_mechanism_preconditions earnings_in_blackout)).
  reflexivity.
Defined.

(** X7.  The structure selected for the matched mechanism: an
    earnings-volatility match always gets a long straddle or a long
    strangle, a VRP match a short strangle or an iron condor, and the
    calendar spread of the VRP selection is never selected for a match
    (its branch needs an IV rank of at most 60). *)
Theorem matched_structure (t : ticker_input) (s : structure_input) :
  let m := match_mechanism t in
  (m = EARNINGS_VOLATILITY ->
   select_structure m t s = Some LONG_STRADDLE \/
   select_structure m t s = Some LONG_STRANGLE) /\
  (m = VRP ->
   select_structure m t s = Some SHORT_STRANGLE \/
   select_structure m t s = Some IRON_CONDOR) /\
  select_structure m t s <> Some CALENDAR_SPREAD.
Proof.
  intros m.
  assert (Hlt : m = EARNINGS_VOLATILITY -> iv_rank_lt t 40 = true).
  { intros Hm. now destruct (earnings_match_inv t Hm). }
  assert (Hgt : m = VRP -> iv_rank_gt t 60 = true).
  { intros Hm. destruct (vrp_match_inv t Hm) as ((r & Hr & Hgt) & _).
    unfold iv_rank_gt. rewrite Hr. now apply Qgtb_true. }
  split; [|split].
  - intros Hm. rewrite Hm. simpl. rewrite (Hlt Hm).
    destruct (iv_rank_lt t 30 && _); auto.
  - intros Hm. rewrite Hm. simpl. rewrite (Hgt Hm).
    destruct (iv_rank_gt t 70 && _); auto.
  - destruct m eqn:Hm; simpl.
    + destruct (iv_rank_lt t 30 && _); [discriminate|].
      destruct (iv_rank_lt t 40); discriminate.
    + rewrite (Hgt eq_refl). destruct (iv_rank_gt t 70 && _); discriminate.
    + destruct (classify_momentum t); destruct (conviction s); discriminate.
    + destruct (extended_above_mean s); [discriminate|].
      destruct (extended_below_mean s); discriminate.
    + discriminate.
Qed.

(** X8.  A momentum-drift match is left without a structure exactly when
    the momentum is STRONG and the conviction is not HIGH: the selection
    has a rule for strong momentum with high conviction and one for
    moderate momentum, and none for that case. *)
Theorem momentum_structure_gap (t : ticker_input) (s : structure_input) :
  match_mechanism t = MOMENTUM_DRIFT ->
  (select_structure MOMENTUM_DRIFT t s = None <->
   classify_momentum t = STRONG_MOMENTUM /\ conviction s <> HIGH).
Proof.
  intros Hm.
  destruct (momentum_match_inv t Hm) as (Hmom & _ & _).
  simpl. destruct Hmom as [-> | ->]; destruct (conviction s);
    split; try discriminate; try (intros [? ?]; congruence);
    intros _; split; congruence.
Qed.

Lemma momentum_structure_gap_witness :
  match_mechanism Examples.nvda_setup = MOMENTUM_DRIFT /\
  select_structure MOMENTUM_DRIFT Examples.nvda_setup Examples.moderate_conviction
    = None.
Proof.
  split; [reflexivity|].
  apply (momentum_structure_gap Examples.nvda_setup Examples.moderate_conviction
           eq_refl).
  split; [reflexivity | discriminate].
Defined.

End MatchFacts.

(** ** Liquidity: what an approval means *)

Section ApprovalFacts.

Import Liquidity.

Lemma when_app_nil {A : Type} (b : bool) (x : A) (l : list A) :
  when b x ++ l = [] <-> b = false /\ l = [].
Proof.
  destruct b; simpl; split.
  - discriminate.
  - intros [H _]. discriminate H.
  - auto.
  - now intros [_ H].
Qed.

Lemma when_nil {A : Type} (b : bool) (x : A) : when b x = [] <-> b = false.
Proof. destruct b; simpl; split; auto; discriminate. Qed.

Lemma app_nil_iff {A : Type} (l1 l2 : list A) : l1 ++ l2 = [] <-> l1 = [] /\ l2 = [].
Proof.
  split.
  - apply app_eq_nil.
  - now intros [-> ->].
Qed.

Lemma approved_no_rejections (c : option_contract) (stock_check : option stock_quote)
    (position_size : Q) :
  approved (check_contract c stock_check position_size) = true <->
  0 < mid_price c /\
  step3_rejects (spread_pct c) ++ step4_rejects c position_size ++
  step5_rejects c position_size ++ step7_rejects c ++
  step8_rejects c (spread_pct c) ++ step9_rejects stock_check ++
  step11_rejects c stock_check (spread_pct c) position_size = [].
Proof.
  unfold check_contract. destruct (mid_price c >? 0) eqn:Em.
  - apply Qgtb_true in Em. simpl.
    destruct (step3_rejects _ ++ _) eqn:E.
    + split; auto.
    + split; [discriminate | intros [_ H]; discriminate H].
  - apply Qgtb_false in Em. simpl.
    split; [discriminate | intros [H _]; lra].
Qed.

Lemma approval_iff (c : option_contract)
    (stock_check : option stock_quote) (position_size : Q) :
  approved (check_contract c stock_check position_size) = true <->
  0 < mid_price c /\
  spread_pct c <= 0.5 /\
  100 <= volume_today c /\ position_size * 20 <= volume_today c /\
  500 <= open_interest c /\ position_size * 50 <= open_interest c /\
  last_trade_minutes_ago c <= 120 /\
  ~ bid_price c == 0 /\ ~ ask_price c == 0 /\
  (40 <= liquidity_score c (spread_pct c) position_size)%Z /\
  match stock_check with
  | Some s => 200000 <= stock_avg_daily_volume s /\ stock_spread_pct s <= 0.5
  | None => True
  end.
Proof.
  rewrite approved_no_rejections.
  unfold step3_rejects, step4_rejects, step5_rejects, step7_rejects,
    step8_rejects, step9_rejects, step11_rejects, min_volume_threshold, tier_of.
  set (sp := spread_pct c). set (score := liquidity_score c sp position_size).
  split.
  - intros [Hmid H]. split; [exact Hmid|].
    repeat (rewrite <- ?app_assoc in H;
            first [ apply when_app_nil in H; destruct H as [? H]
                  | apply when_nil in H ]).
    repeat match goal with
    | H : (_ >? _) = false |- _ => apply Qgtb_false in H
    | H : (_ <? _) = false |- _ => apply Qltb_false in H
    | H : _ || _ = false |- _ => apply orb_false_iff in H; destruct H
    | H : Qeq_bool _ _ = false |- _ => apply Qeq_bool_neq in H
    end.
    match goal with H : Qmax _ _ <= _ |- _ =>
      apply Q.max_lub_iff in H; destruct H end.
    destruct stock_check as [s|].
    + repeat (rewrite <- ?app_assoc in H;
              first [ apply when_app_nil in H; destruct H as [? H]
                    | apply when_nil in H ]).
      repeat match goal with
      | H : (_ >? _) = false |- _ => apply Qgtb_false in H
      | H : (_ <? _) = false |- _ => apply Qltb_false in H
      | H : _ || _ = false |- _ => apply orb_false_iff in H; destruct H
      | H : Qeq_bool _ _ = false |- _ => apply Qeq_bool_neq in H
      | H : (_ <? _)%Z = false |- _ => apply Z.ltb_ge in H
      end.
      repeat split; auto.
    + simpl in H.
      repeat (rewrite <- ?app_assoc in H;
              first [ apply when_app_nil in H; destruct H as [? H]
                    | apply when_nil in H ]).
      repeat match goal with
      | H : (_ >? _) = false |- _ => apply Qgtb_false in H
      | H : (_ <? _) = false |- _ => apply Qltb_false in H
      | H : _ || _ = false |- _ => apply orb_false_iff in H; destruct H
      | H : Qeq_bool _ _ = false |- _ => apply Qeq_bool_neq in H
      | H : (_ <? _)%Z = false |- _ => apply Z.ltb_ge in H
      end.
      repeat split; auto.
  - intros (Hmid & Hsp & Hv & Hv' & Ho & Ho' & Hr & Hb & Ha & Hs & Hst).
    split; [exact Hmid|].
    assert (E1 : (sp >? 0.5) = false) by now apply Qgtb_false.
    assert (E2 : (sp <=? 0.5) = true) by now apply Qleb_true.
    assert (E3 : (sp >? 1.0) = false) by (apply Qgtb_false; lra).
    assert (E4 : (volume_today c <? Qmax 100 (position_size * 20)) = false).
    { apply Qltb_false. now apply Q.max_lub. }
    assert (E5 : (open_interest c <? position_size * 50) = false)
      by now apply Qltb_false.
    assert (E6 : (last_trade_minutes_ago c >? 120) = false) by now apply Qgtb_false.
    assert (E7 : (volume_today c <? 100) = false) by now apply Qltb_false.
    assert (E8 : (volume_today c <? position_size * 20) = false)
      by now apply Qltb_false.
    assert (E9 : (open_interest c <? 500) = false) by now apply Qltb_false.
    assert (E10 : Qeq_bool (bid_price c) 0 = false).
    { apply not_true_iff_false. intros H. now apply Qeq_bool_iff in H. }
    assert (E11 : Qeq_bool (ask_price c) 0 = false).
    { apply not_true_iff_false. intros H. now apply Qeq_bool_iff in H. }
    assert (E12 : (score <? 40)%Z = false) by now apply Z.ltb_ge.
    rewrite E1, E3, E4, E5, E6, E7, E8, E9, E10, E11, E12.
    rewrite andb_false_r. simpl.
    destruct (sp <=? 0.2); [|rewrite E2]; simpl;
      (destruct stock_check as [s|]; [|reflexivity]);
      destruct Hst as [Hadv Hss];
      apply Qltb_false in Hadv; apply Qgtb_false in Hss;
      rewrite Hadv, Hss; reflexivity.
Qed.

(** X9.  A contract is approved exactly when it has a positive mid price,
    a spread of at most 0.5% of mid, a volume of at least 100 and at least
    20 times the position size, an open interest of at least 500 and at
    least 50 times the position size, a last trade at most 120 minutes old,
    non-zero bid and ask, a liquidity score of at least 40 and, when the
    stock is checked, an average daily volume of at least 200,000 shares
    and a stock spread of at most 0.5%. *)
Theorem approval_characterised (c : option_contract)
    (stock_check : option stock_quote) (position_size : Q) :
  approved (check_contract c stock_check position_size) = true <->
  0 < mid_price c /\
  spread_pct c <= 0.5 /\
  100 <= volume_today c /\ position_size * 20 <= volume_today c /\
  500 <= open_interest c /\ position_size * 50 <= open_interest c /\
  last_trade_minutes_ago c <= 120 /\
  ~ bid_price c == 0 /\ ~ ask_price c == 0 /\
  (40 <= liquidity_score c (spread_pct c) position_size)%Z /\
  match stock_check with
  | Some s => 200000 <= stock_avg_daily_volume s /\ stock_spread_pct s <= 0.5
  | None => True
  end.
Proof.
  split; [apply (proj1 (approval_iff c stock_check position_size))
         | apply (proj2 (approval_iff c stock_check position_size))].
Qed.

Lemma depth_points_antitone (c : option_contract) (s s' : Q) :
  s' <= s -> (depth_points c s <= depth_points c s')%Z.
Proof.
  intros H. unfold depth_points. qcase; try lia; exfalso; lra.
Qed.

(** X10.  An approval holds for every smaller position: a contract approved
    for a position size is approved for any size below it. *)
Theorem approval_for_smaller_position (c : option_contract)
    (stock_check : option stock_quote) (s s' : Q) :
  s' <= s ->
  approved (check_contract c stock_check s) = true ->
  approved (check_contract c stock_check s') = true.
Proof.
  intros Hle H. apply approval_iff in H. apply approval_iff.
  destruct H as (Hmid & Hsp & Hv & Hv' & Ho & Ho' & Hr & Hb & Ha & Hs & Hst).
  pose proof (depth_points_antitone c s s' Hle) as Hd.
  repeat split; auto; try lra.
  unfold liquidity_score in *. lia.
Qed.

Lemma approval_for_smaller_position_witness :
  approved (check_contract Examples.tight_call None 10) = true /\
  approved (check_contract Examples.tight_call None 2) = true.
Proof.
  split; [reflexivity|].
  apply (approval_for_smaller_position Examples.tight_call None 10 2).
  - discriminate.
  - reflexivity.
Defined.

(** X11.  The liquidity score lies between 0 and 100 and is a multiple of
    5, whatever the quote. *)
Theorem liquidity_score_range (c : option_contract) (sp position_size : Q) :
  (0 <= liquidity_score c sp position_size <= 100)%Z /\
  (5 | liquidity_score c sp position_size)%Z.
Proof.
  unfold liquidity_score, spread_points, volume_points, open_interest_points,
    depth_points, recency_points.
  qcase; (split; [lia|]);
    match goal with |- (5 | ?x)%Z =>
      let q := eval vm_compute in (x / 5)%Z in exists q; reflexivity end.
Qed.

Lemma in_when {A : Type} (b : bool) (x y : A) : In x (when b y) -> b = true.
Proof. destruct b; simpl; [reflexivity | contradiction]. Qed.

(** X12.  An approved contract is in the EXCELLENT or the ACCEPTABLE spread
    tier; the POOR tier and the warnings for a spread of 0.5-1.0%, for a
    volume under 100 and for an open interest under 500 only occur on
    rejected contracts. *)
Theorem approved_tier_and_warnings (c : option_contract)
    (stock_check : option stock_quote) (position_size : Q)
    (k : contract_check) :
  check_contract c stock_check position_size = Checked k ->
  approved (Checked k) = true ->
  (tier k = EXCELLENT \/ tier k = ACCEPTABLE) /\
  ~ In SpreadPoor (warnings k) /\
  ~ In WarnSpread05to10 (warnings k) /\
  ~ In VolumeVeryLow (warnings k) /\
  ~ In OpenInterestVeryLow (warnings k).
Proof.
  intros Hk Happ. rewrite <- Hk in Happ. apply approval_iff in Happ.
  destruct Happ as (Hmid & Hsp & Hv & _ & Ho & _).
  unfold check_contract in Hk.
  destruct (mid_price c >? 0); [|discriminate].
  inversion Hk; subst; simpl. clear Hk.
  assert (Et : tier_of (spread_pct c) = EXCELLENT \/
               tier_of (spread_pct c) = ACCEPTABLE).
  { unfold tier_of. apply Qleb_true in Hsp.
    destruct (spread_pct c <=? 0.2); [now left|]. rewrite Hsp. now right. }
  split; [exact Et|].
  unfold warnings_of.
  assert (E1 : (spread_pct c >? 0.5) = false) by now apply Qgtb_false.
  assert (E2 : (volume_today c <? 100) = false) by now apply Qltb_false.
  assert (E3 : (open_interest c <? 500) = false) by now apply Qltb_false.
  assert (E4 : match tier_of (spread_pct c) with POOR => true | _ => false end
               = false) by (destruct Et as [-> | ->]; reflexivity).
  rewrite E1, E2, E3, E4. simpl.
  repeat split; intros Hin;
    repeat (apply in_app_or in Hin; destruct Hin as [Hin | Hin]);
    try (destruct stock_check;
         repeat (apply in_app_or in Hin; destruct Hin as [Hin | Hin]));
    try contradiction;
    match type of Hin with In _ (when ?b _) =>
      destruct b; simpl in Hin;
        [destruct Hin as [Hin | []]; discriminate Hin | contradiction] end.
Qed.

Lemma approved_tier_and_warnings_witness :
  exists k, check_contract Examples.tight_call None 2 = Checked k /\
            (tier k = EXCELLENT \/ tier k = ACCEPTABLE).
Proof.
  eexists. split; [reflexivity|].
  eapply (approved_tier_and_warnings Examples.tight_call None 2);
    reflexivity.
Defined.

End ApprovalFacts.

(** ** Position sizing: the adjustments and the gate *)

Section SizingMore.

Import Sizing.

(** X13.  After the concentration limit of Step 7, the existing exposure to
    the ticker plus the exposure of the new position is at most 15% of the
    portfolio, whatever count came in. *)
Theorem concentration_limit_caps_exposure (i : sizing_input)
    (contracts existing : Q) :
  0 < portfolio_total_value i ->
  0 < position_value_per_contract i ->
  existing_exposure_pct i = Some existing ->
  existing
  + fst (concentration_limit i contracts) * position_value_per_contract i
    / portfolio_total_value i <= 0.15.
Proof.
  intros HP Hv He. unfold concentration_limit. rewrite He.
  destruct (_ >? 0.15) eqn:E; simpl.
  - clear E.
    set (m := (0.15 - existing) * portfolio_total_value i
              / position_value_per_contract i).
    assert (Hm : m * position_value_per_contract i / portfolio_total_value i
                 == 0.15 - existing) by (unfold m; field; split; lra).
    assert (Hle : Qmin contracts m * position_value_per_contract i
                  / portfolio_total_value i
                  <= m * position_value_per_contract i / portfolio_total_value i).
    { apply Qmult_le_compat_r.
      - apply Qmult_le_compat_r; [apply Q.le_min_r | lra].
      - apply Qlt_le_weak, Qinv_lt_0_compat, HP. }
    rewrite Hm in Hle. lra.
  - now apply Qgtb_false in E.
Qed.

Lemma concentration_limit_caps_exposure_witness :
  (8 # 100)
  + fst (concentration_limit
           {| portfolio_total_value := 50000; position_type_of := core;
              conviction_of := HIGH; trade_structure_of := DebitSpread 1500;
              max_loss_per_spread := 1500; position_value_per_contract := 1500;
              capital_per_contract := 1500;
              current_position_correlation := None;
              existing_exposure_pct := Some (8 # 100) |} 3)
    * 1500 / 50000 <= 0.15.
Proof.
  apply (concentration_limit_caps_exposure
           {| portfolio_total_value := 50000; position_type_of := core;
              conviction_of := HIGH; trade_structure_of := DebitSpread 1500;
              max_loss_per_spread := 1500; position_value_per_contract := 1500;
              capital_per_contract := 1500;
              current_position_correlation := None;
              existing_exposure_pct := Some (8 # 100) |} 3 (8 # 100));
    reflexivity.
Defined.

Lemma round_down_mono (x y : Q) : x <= y -> round_down x <= round_down y.
Proof.
  intros H. unfold round_down. rewrite <- Zle_Qle. now apply Qfloor_resp_le.
Qed.

Lemma round_down_nonneg (x : Q) : 0 <= x -> 0 <= round_down x.
Proof. intros H. apply (round_down_mono 0 x H). Qed.

Lemma div_le_div (a b d : Q) : 0 < d -> a <= b -> a / d <= b / d.
Proof.
  intros Hd H. apply Qmult_le_compat_r; [exact H|].
  apply Qlt_le_weak, Qinv_lt_0_compat, Hd.
Qed.

(** X14.  For a debit spread whose maximum loss is the debit paid, the
    tables of Steps 1, 2 and 4 decide which method binds: a core position
    is always sized by the risk budget, a speculative position always by
    the allocation. *)
Theorem binding_method_by_position_type (i : sizing_input) (d : Q) :
  0 < portfolio_total_value i ->
  0 < d ->
  trade_structure_of i = DebitSpread d ->
  max_loss_per_spread i == d ->
  (position_type_of i = core ->
   initial_contracts i == contracts_from_risk i) /\
  (position_type_of i = speculative ->
   initial_contracts i == round_down (dollar_allocation i / d)).
Proof.
  intros HP Hd Hs HL. unfold initial_contracts. rewrite Hs.
  assert (Hrisk : contracts_from_risk i == round_down (max_dollar_risk i / d)).
  { unfold contracts_from_risk, round_down. now rewrite HL. }
  split; intros Ht.
  - apply Q.min_r. rewrite Hrisk. apply round_down_mono, div_le_div; [exact Hd|].
    unfold max_dollar_risk, dollar_allocation, adjusted_allocation_pct.
    rewrite Ht. destruct (conviction_of i); simpl; nra.
  - apply Q.min_l. rewrite Hrisk. apply round_down_mono, div_le_div; [exact Hd|].
    unfold max_dollar_risk, dollar_allocation, adjusted_allocation_pct.
    rewrite Ht. destruct (conviction_of i); simpl; nra.
Qed.

Lemma binding_method_by_position_type_witness :
  initial_contracts nvda_vertical == contracts_from_risk nvda_vertical.
Proof.
  apply (proj1 (binding_method_by_position_type nvda_vertical 1200
                  eq_refl eq_refl eq_refl (Qeq_refl _))).
  reflexivity.
Defined.

Lemma adjusted_le_initial (i : sizing_input) :
  0 <= initial_contracts i -> adjusted_contracts i <= initial_contracts i.
Proof.
  intros H0. unfold adjusted_contracts.
  destruct (correlation_reduction i) as [r|] eqn:E; [|apply Qle_refl].
  destruct (correlation_reduction_range i r E) as [Hr0 Hr1].
  apply Qle_trans with (initial_contracts i * r); [apply round_down_le | nra].
Qed.

(** X15.  The correlation adjustment and the concentration limit never
    raise the count: when the count of Step 5 is not negative, the final
    count of a result is at most that count. *)
Theorem final_at_most_initial (i : sizing_input) (r : PositionSizeResult) :
  0 <= initial_contracts i ->
  calculate_sizing i = Sized r ->
  final_contracts r <= initial_contracts i.
Proof.
  intros H0 Hr.
  destruct (calculate_sizing_final i r Hr) as (Hf & _).
  rewrite Hf.
  apply Qle_trans with (adjusted_contracts i);
    [apply concentration_limit_le | now apply adjusted_le_initial].
Qed.

Lemma final_at_most_initial_witness :
  exists r, calculate_sizing nvda_vertical = Sized r /\
            final_contracts r <= initial_contracts nvda_vertical.
Proof.
  destruct (calculate_sizing nvda_vertical) as [r|] eqn:E;
    [|revert E; vm_compute; discriminate].
  exists r. split; [reflexivity|].
  apply (final_at_most_initial nvda_vertical r); [discriminate | exact E].
Defined.



End SizingMore.

(** ** From the sizer to the checklist *)

Section SizerToGate.

Lemma debit_initial_bounds (i : Sizing.sizing_input) (d : Q) :
  0 < Sizing.portfolio_total_value i -> 0 < d ->
  0 < Sizing.max_loss_per_spread i ->
  Sizing.trade_structure_of i = Sizing.DebitSpread d ->
  0 <= Sizing.initial_contracts i /\
  Sizing.initial_contracts i * d <= Sizing.dollar_allocation i.
Proof.
  intros HP Hd HL Hs. unfold Sizing.initial_contracts. rewrite Hs.
  assert (Ha : 0 <= Sizing.dollar_allocation i).
  { unfold Sizing.dollar_allocation, Sizing.adjusted_allocation_pct.
    destruct (Sizing.position_type_of i), (Sizing.conviction_of i); simpl; nra. }
  destruct (max_dollar_risk_range i HP) as [Hm _].
  split.
  - apply Q.min_glb; apply round_down_nonneg.
    + apply Qle_shift_div_l; [exact Hd | lra].
    + apply Qle_shift_div_l; [exact HL | lra].
  - apply Qle_trans with (round_down (Sizing.dollar_allocation i / d) * d).
    + apply Qmult_le_compat_r; [apply Q.le_min_l | lra].
    + assert (E : Sizing.dollar_allocation i / d * d == Sizing.dollar_allocation i)
        by (field; lra).
      rewrite <- E at 2.
      apply Qmult_le_compat_r; [apply round_down_le | lra].
Qed.

(** X17.  A debit spread sized by calculate_sizing passes SECTION 4 of the
    pre-trade checklist: with the same portfolio value, classification and
    conviction, the final count, the debit as cost per contract and the
    same maximum loss per contract, neither the position size limit nor
    the risk limits reject it. *)
Theorem sized_debit_spread_passes_section4 (i : Sizing.sizing_input) (d : Q)
    (r : Sizing.PositionSizeResult) (g : Gate.gate_input) :
  0 < Sizing.portfolio_total_value i ->
  0 < d ->
  0 < Sizing.max_loss_per_spread i ->
  Sizing.trade_structure_of i = Sizing.DebitSpread d ->
  Sizing.calculate_sizing i = Sizing.Sized r ->
  Gate.portfolio_total_value (Gate.portfolio g) == Sizing.portfolio_total_value i ->
  Gate.position_size g == Sizing.final_contracts r ->
  Gate.cost_per_contract g == d ->
  Gate.max_loss_per_contract g == Sizing.max_loss_per_spread i ->
  Gate.position_type_of g = Sizing.position_type_of i ->
  Gate.conviction g = Sizing.conviction_of i ->
  Gate.section4 g = Gate.PASS [].
Proof.
  intros HP Hd HL Hs Hr EP En Ec El Et Ev.
  destruct (calculate_sizing_final i r Hr) as (Hf & _).
  destruct (debit_initial_bounds i d HP Hd HL Hs) as [H0 Halloc].
  assert (Hfi : Sizing.final_contracts r <= Sizing.initial_contracts i).
  { rewrite Hf.
    apply Qle_trans with (Sizing.adjusted_contracts i);
      [apply concentration_limit_le | now apply adjusted_le_initial]. }
  assert (Hrisk : Sizing.final_contracts r * Sizing.max_loss_per_spread i
                  <= Sizing.max_dollar_risk i).
  { rewrite Hf. apply spread_final_within_budget; auto. left. now exists d. }
  assert (Hvalue : Sizing.final_contracts r * d <= Sizing.dollar_allocation i).
  { apply Qle_trans with (Sizing.initial_contracts i * d); [|exact Halloc].
    apply Qmult_le_compat_r; [exact Hfi | lra]. }
  unfold Gate.section4, Gate.pct, Gate.pct_of, Gate.position_value, Gate.max_loss.
  assert (E1 : Gate.position_size g * Gate.cost_per_contract g
               / Gate.portfolio_total_value (Gate.portfolio g) * 100
               <= Gate.max_pct (Gate.position_type_of g)).
  { rewrite EP, En, Ec, Et. apply bound_pct; [exact HP|].
    revert Hvalue. unfold Sizing.dollar_allocation, Sizing.adjusted_allocation_pct.
    destruct (Sizing.position_type_of i), (Sizing.conviction_of i); simpl; nra. }
  assert (E2 : Gate.position_size g * Gate.max_loss_per_contract g
               / Gate.portfolio_total_value (Gate.portfolio g) * 100
               <= Gate.max_risk_allowed (Gate.position_type_of g) (Gate.conviction g)
               /\
               Gate.position_size g * Gate.max_loss_per_contract g
               / Gate.portfolio_total_value (Gate.portfolio g) * 100 <= 5).
  { rewrite EP, En, El, Et, Ev.
    split; (apply bound_pct; [exact HP|]);
      revert Hrisk; unfold Sizing.max_dollar_risk;
      destruct (Sizing.position_type_of i), (Sizing.conviction_of i); simpl; nra. }
  destruct E2 as [E2 E3].
  apply Qgtb_false in E1. apply Qgtb_false in E2. apply Qgtb_false in E3.
  rewrite E1, E2, E3. reflexivity.
Qed.

Lemma sized_debit_spread_passes_section4_witness :
  Gate.section4 Gate.nvda_trade = Gate.PASS [].
Proof.
  eapply (sized_debit_spread_passes_section4 Sizing.nvda_vertical 1200 _
            Gate.nvda_trade); reflexivity.
Defined.

(** X18.  SECTION 4 never rejects with "Risk exceeds absolute maximum
    (5%)": a maximum loss above 5% is already above the allowed 3% or 2%
    and is rejected by the check before it. *)
Theorem absolute_risk_check_unreachable (g : Gate.gate_input) :
  Gate.section4 g <> Gate.FAIL Gate.RiskExceedsAbsolute5.
Proof.
  unfold Gate.section4.
  destruct (_ >? Gate.max_pct _); [discriminate|].
  destruct (_ >? Gate.max_risk_allowed _ _) eqn:E; [discriminate|].
  apply Qgtb_false in E.
  destruct (_ >? 5) eqn:E5; [|discriminate].
  apply Qgtb_true in E5. exfalso.
  destruct (Gate.position_type_of g), (Gate.conviction g); simpl in E; lra.
Qed.

End SizerToGate.

(** ** Pre-trade checklist: what an approval guarantees *)

Section ApprovedFacts.

Import Gate.

Variable calculate_correlation : string -> string -> Q.

Lemma section3_loop_warnings (i : gate_input) (ps : list existing_position)
    (acc w : list gate_warning) :
  section3_loop calculate_correlation i ps acc = PASS w ->
  w = acc ++ map HighCorrelation
               (filter (fun t => calculate_correlation (ticker i) t >? 0.8)
                       (map ticker_of ps)) /\
  ((exists p, In p ps /\ 0.8 < calculate_correlation (ticker i) (ticker_of p)) ->
   pct i (sum_correlated_positions calculate_correlation i) <= 25).
Proof.
  revert acc. induction ps as [|p ps IH]; simpl; intros acc H.
  - inversion H. rewrite app_nil_r. split; [reflexivity|].
    intros (p & [] & _).
  - destruct (String.eqb (ticker_of p) (ticker i) && _); [discriminate|].
    destruct (calculate_correlation (ticker i) (ticker_of p) >? 0.8) eqn:Ec.
    + destruct (_ >? 25) eqn:E25; [discriminate|].
      apply Qgtb_false in E25.
      destruct (IH _ H) as [Hw _]. split.
      * rewrite Hw, <- app_assoc. reflexivity.
      * intros _. exact E25.
    + destruct (IH _ H) as [Hw Hg]. split; [exact Hw|].
      intros (q & [<- | Hq] & Hc).
      * apply Qgtb_false in Ec. lra.
      * apply Hg. now exists q.
Qed.

(** X19.  When SECTION 3 passes, its warnings are exactly one "high
    correlation" warning for each existing position correlated above 0.8
    with the new ticker, in portfolio order; and if there is such a
    position, the correlated exposure including the new position is at
    most 25% of the portfolio. *)
Theorem section3_warnings (i : gate_input) (w : list gate_warning) :
  section3 calculate_correlation i = PASS w ->
  w = map HighCorrelation
        (filter (fun t => calculate_correlation (ticker i) t >? 0.8)
                (map ticker_of (positions (portfolio i)))) /\
  ((exists p, In p (positions (portfolio i)) /\
              0.8 < calculate_correlation (ticker i) (ticker_of p)) ->
   pct i (sum_correlated_positions calculate_correlation i) <= 25).
Proof.
  intros H. exact (section3_loop_warnings i _ [] w H).
Qed.

Lemma checklist_items (i : gate_input) :
  final (pre_trade_checklist calculate_correlation i) = APPROVED ->
  spread_pct (liquidity i) <= 0.5 /\
  (forall p, In p (positions (portfolio i)) ->
             calculate_correlation (ticker i) (ticker_of p) < 0.8) /\
  1 <= risk_reward_ratio i /\
  capital_required i <= account_cash i /\
  (forall d, In d (days_to_expiration i) -> (7 <= d)%Z) /\
  event_flags i = [] /\
  (counter_to_disposition i = [] \/ justification_given i = true).
Proof.
  intros Happ. destruct (approved_inv calculate_correlation i Happ) as [_ Hitems].
  unfold final_checklist in Hitems. cbn [forallb] in Hitems.
  repeat (apply andb_true_iff in Hitems; destruct Hitems as [? Hitems]).
  repeat match goal with
  | H : (_ <=? _) = true |- _ => apply Qleb_true in H
  | H : (_ >=? _) = true |- _ => apply Qgeb_true in H
  end.
  split; [assumption|]. split.
  { match goal with H : forallb _ (positions _) = true |- _ =>
      rewrite forallb_forall in H; intros p Hp; apply Qltb_true, H, Hp end. }
  split; [lra|]. split; [assumption|]. split.
  { match goal with H : forallb _ (days_to_expiration _) = true |- _ =>
      rewrite forallb_forall in H; intros d Hd;
      specialize (H d Hd); rewrite Z.geb_leb in H; now apply Z.leb_le end. }
  split.
  { destruct (event_flags i); [reflexivity | discriminate]. }
  destruct (counter_to_disposition i); auto.
Qed.

Lemma sections_pass (i : gate_input) :
  final (pre_trade_checklist calculate_correlation i) = APPROVED ->
  failed (section1 i) = false /\ failed (section2 i) = false /\
  failed (section3 calculate_correlation i) = false /\
  failed (section4 i) = false /\ failed (section7 i) = false /\
  failed (section8 i) = false /\ failed (section9 i) = false.
Proof.
  intros Happ. destruct (approved_inv calculate_correlation i Happ) as [Hpass _].
  split; [apply (Hpass (LIQUIDITY, section1)); simpl; auto|].
  split; [apply (Hpass (EVENT_RISK, section2)); simpl; auto|].
  split; [apply (Hpass (CORRELATION, section3 calculate_correlation));
          simpl; auto|].
  split; [apply (Hpass (POSITION_SIZING, section4)); simpl; auto|].
  split; [apply (Hpass (RISK_REWARD, section7)); simpl; auto 10|].
  split; [apply (Hpass (PORTFOLIO_RISK, section8)); simpl; auto 10|].
  apply (Hpass (EXECUTION, section9)); simpl; auto 12.
Qed.

(** X20.  What APPROVED guarantees: the liquidity spread is at most 0.5%,
    earnings are more than 7 days away (an earnings play included), the
    new position is at most 10% of the portfolio and its maximum loss at
    most 3%, risk/reward is at least 1:1, total open risk with the new
    position is at most 15%, cash covers the capital required, every
    contract has at least 7 days to expiration and no existing position is
    correlated 0.8 or more with the new ticker. *)
Theorem approved_guarantees (i : gate_input) :
  final (pre_trade_checklist calculate_correlation i) = APPROVED ->
  status (liquidity i) = LIQ_APPROVED /\
  spread_pct (liquidity i) <= 0.5 /\
  (forall d, earnings_days_away i = Some d -> (7 < d)%Z) /\
  pct i (position_value i) <= 10 /\
  pct i (max_loss i) <= 3 /\
  1 <= risk_reward_ratio i /\
  total_risk_pct i <= 15 /\
  capital_required i <= account_cash i /\
  (forall d, In d (days_to_expiration i) -> (7 <= d)%Z) /\
  (forall p, In p (positions (portfolio i)) ->
             calculate_correlation (ticker i) (ticker_of p) < 0.8).
Proof.
  intros Happ.
  destruct (checklist_items i Happ) as (Hsp & Hcorr & Hrr & Hcash & Hexp & _ & _).
  destruct (sections_pass i Happ) as (H1 & H2 & _ & H4 & _ & H8 & _).
  split.
  { unfold section1 in H1. destruct (status (liquidity i));
      [reflexivity | discriminate H1]. }
  split; [exact Hsp|]. split.
  { intros d Hd. unfold section2 in H2. rewrite Hd in H2.
    destruct (d <=? 7)%Z eqn:E; [discriminate H2 | now apply Z.leb_gt in E]. }
  unfold section4 in H4.
  destruct (_ >? max_pct _) eqn:E4; [discriminate H4|].
  destruct (_ >? max_risk_allowed _ _) eqn:E4'; [discriminate H4|].
  apply Qgtb_false in E4. apply Qgtb_false in E4'.
  split.
  { destruct (position_type_of i); simpl in E4; lra. }
  split.
  { destruct (position_type_of i), (conviction i); simpl in E4'; lra. }
  split; [exact Hrr|]. split.
  { unfold section8 in H8.
    destruct (_ >? 15) eqn:E8; [discriminate H8 | now apply Qgtb_false]. }
  auto.
Qed.

Lemma run_sections_all (ss : list (section_id * (gate_input -> section_outcome)))
    (i : gate_input) :
  halted (run_sections ss i) = false ->
  run_sections ss i = map (fun e => (fst e, snd e i)) ss.
Proof.
  induction ss as [|[n s] ss IH]; simpl; intros H; [reflexivity|].
  destruct (s i) as [w|r]; [|discriminate H].
  f_equal. apply IH. exact H.
Qed.

Lemma in_when_inv {A : Type} (b : bool) (x y : A) :
  In x (Gate.when b y) -> b = true /\ x = y.
Proof.
  destruct b; simpl; [|contradiction].
  intros [H | []]. now split.
Qed.

Lemma counter_to_disposition_inv (i : gate_input) (w : gate_warning) :
  In w (counter_to_disposition i) -> w = BearishInBull \/ w = BullishInBear.
Proof.
  unfold counter_to_disposition.
  destruct (market_disposition_of i); intros H;
    try (apply in_when_inv in H; destruct H as [_ ->]; auto);
    contradiction.
Qed.

Lemma section3_warning_inv (i : gate_input) (w : gate_warning) :
  In w (match section3 calculate_correlation i with
        | PASS ws => ws
        | FAIL _ => []
        end) ->
  exists p, In p (positions (portfolio i)) /\
            0.8 < calculate_correlation (ticker i) (ticker_of p).
Proof.
  destruct (section3 calculate_correlation i) as [ws|] eqn:E; [|contradiction].
  unfold section3 in E.
  destruct (section3_loop_warnings i _ [] ws E) as [-> _]. simpl.
  intros H. apply in_map_iff in H. destruct H as (t & _ & Ht).
  apply filter_In in Ht. destruct Ht as [Ht Hc].
  apply in_map_iff in Ht. destruct Ht as (p & <- & Hp).
  exists p. split; [exact Hp | now apply Qgtb_true].
Qed.

(** X21.  The warnings surfaced with an APPROVED status: only the earnings
    (8 to 14 days), disposition, weak sector, support / resistance,
    elevated portfolio risk and market closed warnings can accompany an
    approval, never the high-impact event, high correlation, risk/reward
    below 1:1 or expiring-soon warnings; a warning that requires
    acknowledgment implies the acknowledgment was given, and a warning of a
    trade against the disposition implies a justification was given. *)
Theorem approved_warnings (i : gate_input) (w : gate_warning) :
  final (pre_trade_checklist calculate_correlation i) = APPROVED ->
  In w (surfaced_warnings (evaluated (pre_trade_checklist calculate_correlation i))) ->
  (w = EarningsApproaching \/ w = BearishInBull \/ w = BullishInBear \/
   w = BullishInWeakSector \/ w = FarFromSupport \/ w = NearResistance \/
   w = NearSupport \/ w = PortfolioRiskElevated \/ w = MarketClosed) /\
  (needs_acknowledgment w = true -> warnings_acknowledged i = true) /\
  (w = BearishInBull \/ w = BullishInBear -> justification_given i = true).
Proof.
  intros Happ Hin.
  destruct (checklist_items i Happ) as (_ & Hcorr & Hrr & _ & Hexp & Hev & Hjust).
  assert (Hack : needs_acknowledgment w = true -> warnings_acknowledged i = true).
  { intros Hw. revert Happ. unfold pre_trade_checklist.
    cbv beta zeta delta [final].
    destruct (halted _); [discriminate|].
    destruct (Nat.eqb _ _); [|discriminate].
    destruct (warnings_acknowledged i); [reflexivity|].
    rewrite orb_false_r.
    assert (Hex : existsb needs_acknowledgment
                    (surfaced_warnings
                       (run_sections (sections calculate_correlation) i)) = true).
    { apply existsb_exists. exists w. split; [exact Hin | exact Hw]. }
    rewrite Hex. simpl. discriminate. }
  assert (Hrun : evaluated (pre_trade_checklist calculate_correlation i)
                 = map (fun e => (fst e, snd e i)) (sections calculate_correlation)).
  { apply run_sections_all.
    revert Happ. unfold pre_trade_checklist. cbv beta zeta delta [final].
    destruct (halted _); [discriminate | reflexivity]. }
  rewrite Hrun in Hin. clear Hrun Happ.
  unfold surfaced_warnings, sections in Hin.
  cbn [map flat_map fst snd] in Hin.
  assert (Hshape :
    w = EarningsApproaching \/ In w (counter_to_disposition i) \/
    w = BullishInWeakSector \/ w = FarFromSupport \/ w = NearResistance \/
    w = NearSupport \/ w = PortfolioRiskElevated \/ w = MarketClosed).
  { apply in_app_or in Hin. destruct Hin as [Hin | Hin].
    { unfold section1 in Hin. destruct (status (liquidity i)); [|contradiction].
        destruct (_ >? 0.5); contradiction. }
    apply in_app_or in Hin. destruct Hin as [Hin | Hin].
    { unfold section2 in Hin. rewrite Hev in Hin.
        destruct (earnings_days_away i) as [d|]; [|contradiction].
        destruct (d <=? 7)%Z; [contradiction|]. rewrite app_nil_r in Hin.
        apply in_when_inv in Hin. destruct Hin as [_ ->]. auto. }
    apply in_app_or in Hin. destruct Hin as [Hin | Hin].
    { exfalso. destruct (section3_warning_inv i w Hin) as (p & Hp & Hc).
        specialize (Hcorr p Hp). lra. }
    apply in_app_or in Hin. destruct Hin as [Hin | Hin].
    { unfold section4 in Hin.
        destruct (_ >? max_pct _); [contradiction|].
        destruct (_ >? max_risk_allowed _ _); [contradiction|].
        destruct (_ >? 5); contradiction. }
    apply in_app_or in Hin. destruct Hin as [Hin | Hin].
    { unfold section5 in Hin. apply in_app_or in Hin. destruct Hin as [Hin | Hin].
        + auto.
        + apply in_when_inv in Hin. destruct Hin as [_ ->]. auto 10. }
    apply in_app_or in Hin. destruct Hin as [Hin | Hin].
    { unfold section6 in Hin.
        destruct (downtrend_alignment i && _); [contradiction|].
        destruct (direction i).
        + apply in_app_or in Hin.
          destruct Hin as [Hin | Hin]; apply in_when_inv in Hin;
            destruct Hin as [_ ->]; auto 10.
        + apply in_when_inv in Hin. destruct Hin as [_ ->]. auto 10.
        + contradiction. }
    apply in_app_or in Hin. destruct Hin as [Hin | Hin].
    { exfalso. unfold section7 in Hin.
        destruct (risk_reward_ratio i <? 0.5); [contradiction|].
        apply in_when_inv in Hin. destruct Hin as [Hlt _].
        apply Qltb_true in Hlt. lra. }
    apply in_app_or in Hin. destruct Hin as [Hin | Hin].
    { unfold section8 in Hin. destruct (_ >? 15); [contradiction|].
        apply in_when_inv in Hin. destruct Hin as [_ ->]. auto 10. }
    apply in_app_or in Hin. destruct Hin as [Hin | Hin].
    { unfold section9 in Hin.
        destruct (requires_margin i && _); [contradiction|].
        destruct (account_cash i <? capital_required i); [contradiction|].
        destruct (existsb (fun d => (d <? 3)%Z) _); [contradiction|].
        apply in_app_or in Hin. destruct Hin as [Hin | Hin];
          apply in_when_inv in Hin; destruct Hin as [Hb ->]; [auto 10|].
        exfalso. apply existsb_exists in Hb. destruct Hb as (d & Hd & Hlt).
        specialize (Hexp d Hd). apply Z.ltb_lt in Hlt. lia. }
    contradiction. }
  split; [|split; [exact Hack|]].
  - destruct Hshape as [H | [H | H]].
    + auto.
    + destruct (counter_to_disposition_inv i w H); auto.
    + intuition.
  - intros Hw.
    assert (Hc : In w (counter_to_disposition i)).
    { destruct Hshape as [H | [H | H]]; [|exact H|];
        destruct Hw as [-> | ->]; try discriminate H;
        repeat (destruct H as [H | H]; try discriminate H). }
    destruct Hjust as [Hnone | Hj]; [|exact Hj].
    rewrite Hnone in Hc. contradiction.
Qed.


End ApprovedFacts.

Lemma approved_warnings_witness :
  Gate.final (Gate.pre_trade_checklist Gate.example_correlation
                Examples.after_hours_trade) = Gate.APPROVED /\
  (Gate.needs_acknowledgment Gate.MarketClosed = true ->
   Gate.warnings_acknowledged Examples.after_hours_trade = true).
Proof.
  split; [reflexivity|].
  apply (approved_warnings Gate.example_correlation Examples.after_hours_trade
           Gate.MarketClosed eq_refl).
  vm_compute. auto.
Defined.

Lemma approved_guarantees_witness :
  Gate.pct Gate.nvda_trade (Gate.max_loss Gate.nvda_trade) <= 3 /\
  1 <= Gate.risk_reward_ratio Gate.nvda_trade.
Proof.
  pose proof (approved_guarantees Gate.example_correlation Gate.nvda_trade eq_refl)
    as (_ & _ & _ & _ & H3 & Hrr & _).
  split; [exact H3 | exact Hrr].
Defined.

Lemma section3_warnings_witness :
  Gate.section3 Gate.chained_correlation Gate.chained_trade
    = Gate.PASS [Gate.HighCorrelation "AAA"] /\
  Gate.pct Gate.chained_trade
    (Gate.sum_correlated_positions Gate.chained_correlation Gate.chained_trade)
    <= 25.
Proof.
  split; [reflexivity|].
  apply (section3_warnings Gate.chained_correlation Gate.chained_trade
           [Gate.HighCorrelation "AAA"] eq_refl).
  eexists. split; [left; reflexivity | reflexivity].
Defined.

(** ** Beta weighting and portfolio needs *)

Section PortfolioFacts.

Import BetaWeighting.

Lemma bias_of_compat (x y : Q) : x == y -> bias_of x = bias_of y.
Proof.
  intros H. unfold bias_of, Qgtb, Qltb.
  rewrite (Qleb_comp x y H 10 10 (Qeq_refl _)).
  rewrite (Qleb_comp (-10) (-10) (Qeq_refl _) x y H). reflexivity.
Qed.

Lemma weigh_permutation (rows rows' : list csv_row) (spy_price : Q) :
  Permutation rows rows' ->
  forall total warned,
    weigh rows spy_price = inr (total, warned) ->
    exists total' warned',
      weigh rows' spy_price = inr (total', warned') /\
      total' == total /\ Permutation warned warned'.
Proof.
  induction 1 as [| r l l' Hp IH | a b l | l l' l'' H1 IH1 H2 IH2];
    intros total warned H.
  - exists total, warned. split; [exact H|]. split; [reflexivity | apply Permutation_refl].
  - simpl in *. destruct (stock_price r <=? 0); [discriminate|].
    destruct (weigh l spy_price) as [e | [t w]]; [discriminate|].
    destruct (IH t w eq_refl) as (t' & w' & -> & Ht & Hw).
    destruct (position_delta r); inversion H; subst.
    + eexists _, _. split; [reflexivity|]. split; [now rewrite Ht | exact Hw].
    + eexists _, _. split; [reflexivity|]. split; [exact Ht | now apply perm_skip].
  - simpl in *.
    destruct (stock_price b <=? 0); [discriminate|].
    destruct (stock_price a <=? 0); [discriminate|].
    destruct (weigh l spy_price) as [e | [t w]]; [discriminate|].
    destruct (position_delta a), (position_delta b); inversion H; subst;
      eexists _, _; (split; [reflexivity|]);
      (split; [first [ring | reflexivity]|]);
      first [ apply Permutation_refl | apply perm_swap ].
  - destruct (IH1 total warned H) as (t1 & w1 & H1' & Ht1 & Hw1).
    destruct (IH2 t1 w1 H1') as (t2 & w2 & H2' & Ht2 & Hw2).
    exists t2, w2. split; [exact H2'|]. split.
    + now rewrite Ht2.
    + now apply Permutation_trans with w1.
Qed.

(** X22.  The order of the rows of the CSV does not matter: reordering the
    positions gives the same total beta-weighted delta, the same dollar
    exposure, the same directional bias and the same skipped tickers (up to
    order). *)
Theorem beta_weighting_order_independent (rows rows' : list csv_row)
    (spy_price : Q) (s : summary) :
  Permutation rows rows' ->
  calc_beta_weighting rows spy_price = Computed s ->
  exists s', calc_beta_weighting rows' spy_price = Computed s' /\
             total_beta_weighted_delta s' == total_beta_weighted_delta s /\
             dollar_exposure s' == dollar_exposure s /\
             directional_bias s' = directional_bias s /\
             Permutation (skipped s) (skipped s').
Proof.
  intros Hp. unfold calc_beta_weighting.
  destruct ((spy_price <? 300) || (spy_price >? 600)); [discriminate|].
  destruct (weigh rows spy_price) as [e | [t w]] eqn:E; [discriminate|].
  intros H. inversion H; subst; simpl. clear H.
  destruct (weigh_permutation rows rows' spy_price Hp t w E)
    as (t' & w' & -> & Ht & Hw).
  eexists. split; [reflexivity|]. simpl.
  split; [exact Ht|]. split; [now rewrite Ht|].
  split; [now apply bias_of_compat | exact Hw].
Qed.

Lemma beta_weighting_order_independent_witness :
  exists s', calc_beta_weighting (rev portfolio_with_gaps) 450 = Computed s' /\
             In "TSLA"%string (skipped s').
Proof.
  destruct (beta_weighting_order_independent portfolio_with_gaps
              (rev portfolio_with_gaps) 450 _ (Permutation_rev _) eq_refl)
    as (s' & Hs & _ & _ & _ & Hw).
  exists s'. split; [exact Hs|].
  apply (Permutation_in _ Hw). simpl. now left.
Defined.

Lemma balanced_needs_nothing (i : Needs.needs_input) :
  Needs.status_of i = Needs.BALANCED -> Needs.need_type_of i = Needs.NONE.
Proof. intros H. unfold Needs.need_type_of. now rewrite H. Qed.

(** X23.  Hedging with SPY is exact: when the beta weighting of a
    portfolio gives a total, adding a position in SPY itself (beta 1.0 at
    the SPY price) whose delta is the delta gap of determine_needs brings
    the total to the target, and determine_needs then reports BALANCED for
    any tolerance that is not negative. *)
Theorem spy_position_closes_gap (rows : list csv_row) (spy_price target : Q)
    (s : summary) (tolerance portfolio_size : option Q) :
  calc_beta_weighting rows spy_price = Computed s ->
  let gap := Needs.delta_gap
               {| Needs.current_beta_weighted_delta := total_beta_weighted_delta s;
                  Needs.target_delta_exposure := target;
                  Needs.spy_price := spy_price;
                  Needs.tolerance_range := tolerance;
                  Needs.portfolio_size := portfolio_size |} in
  exists s',
    calc_beta_weighting (Examples.spy_position gap spy_price :: rows) spy_price
      = Computed s' /\
    total_beta_weighted_delta s' == target /\
    let after :=
      {| Needs.current_beta_weighted_delta := total_beta_weighted_delta s';
         Needs.target_delta_exposure := target;
         Needs.spy_price := spy_price;
         Needs.tolerance_range := tolerance;
         Needs.portfolio_size := portfolio_size |} in
    (0 <= Needs.effective_tolerance after ->
     Needs.status_of after = Needs.BALANCED /\
     Needs.need_type_of after = Needs.NONE).
Proof.
  unfold calc_beta_weighting.
  destruct ((spy_price <? 300) || (spy_price >? 600)) eqn:Erange; [discriminate|].
  apply orb_false_iff in Erange. destruct Erange as [Elo _].
  apply Qltb_false in Elo.
  destruct (weigh rows spy_price) as [e | [t w]] eqn:E; [discriminate|].
  intros H. inversion H; subst; simpl. clear H.
  assert (Hprice : (spy_price <=? 0) = false) by (apply Qleb_false; lra).
  rewrite Hprice, E.
  eexists. split; [reflexivity|]. simpl.
  assert (Htotal : beta_weighted_delta (Needs.delta_gap
                     {| Needs.current_beta_weighted_delta := t;
                        Needs.target_delta_exposure := target;
                        Needs.spy_price := spy_price;
                        Needs.tolerance_range := tolerance;
                        Needs.portfolio_size := portfolio_size |})
                     1.0 spy_price spy_price + t == target).
  { unfold beta_weighted_delta, Needs.delta_gap. simpl. field. lra. }
  split; [exact Htotal|].
  intros Htol.
  assert (Hbal : Needs.status_of
                   {| Needs.current_beta_weighted_delta :=
                        beta_weighted_delta (Needs.delta_gap
                          {| Needs.current_beta_weighted_delta := t;
                             Needs.target_delta_exposure := target;
                             Needs.spy_price := spy_price;
                             Needs.tolerance_range := tolerance;
                             Needs.portfolio_size := portfolio_size |})
                          1.0 spy_price spy_price + t;
                      Needs.target_delta_exposure := target;
                      Needs.spy_price := spy_price;
                      Needs.tolerance_range := tolerance;
                      Needs.portfolio_size := portfolio_size |} = Needs.BALANCED).
  { unfold Needs.status_of.
    match goal with |- (if ?b then _ else _) = _ =>
      assert (Hb : b = true); [|now rewrite Hb] end.
    apply Qleb_true.
    match goal with |- Qabs ?g <= _ =>
      assert (Hg : g == 0) by (unfold Needs.delta_gap; simpl; rewrite Htotal; ring)
    end.
    rewrite Hg. exact Htol. }
  split; [exact Hbal|].
  apply balanced_needs_nothing. exact Hbal.
Qed.

Lemma spy_position_closes_gap_witness :
  exists s s',
    calc_beta_weighting portfolio_with_gaps 450 = Computed s /\
    calc_beta_weighting
      (Examples.spy_position (50 - total_beta_weighted_delta s) 450
       :: portfolio_with_gaps) 450 = Computed s' /\
    total_beta_weighted_delta s' == 50.
Proof.
  destruct (calc_beta_weighting portfolio_with_gaps 450) as [s|e] eqn:Hs;
    [|revert Hs; vm_compute; discriminate].
  destruct (spy_position_closes_gap portfolio_with_gaps 450 50 s None None Hs)
    as (s' & H1 & H2 & _).
  exists s, s'. split; [reflexivity|]. split; [exact H1 | exact H2].
Defined.

End PortfolioFacts.

Section NeedsFacts.

Import Needs.

(** X24.  With a tolerance that is not negative, determine_needs asks for
    long delta exactly when the gap is above the tolerance, for short delta
    exactly when it is below minus the tolerance, and for nothing exactly
    when the gap is within the tolerance. *)
Theorem need_type_by_gap (i : needs_input) :
  0 <= effective_tolerance i ->
  (need_type_of i = NONE <->
   - effective_tolerance i <= delta_gap i /\ delta_gap i <= effective_tolerance i) /\
  (need_type_of i = ADD_LONG_DELTA <-> effective_tolerance i < delta_gap i) /\
  (need_type_of i = ADD_SHORT_DELTA <-> delta_gap i < - effective_tolerance i).
Proof.
  intros Htol. unfold need_type_of, status_of.
  destruct (Qabs (delta_gap i) <=? effective_tolerance i) eqn:E.
  - apply Qleb_true in E. apply Qabs_Qle_condition in E. destruct E as [E1 E2].
    split; [split; auto|].
    split; split; intros H; try discriminate H; exfalso; lra.
  - apply Qleb_false in E.
    assert (Hout : delta_gap i < - effective_tolerance i \/
                   effective_tolerance i < delta_gap i).
    { destruct (Qlt_le_dec (delta_gap i) (- effective_tolerance i)) as [H | H];
        [now left|].
      destruct (Qlt_le_dec (effective_tolerance i) (delta_gap i)) as [H' | H'];
        [now right|].
      exfalso. apply (Qlt_not_le _ _ E). apply Qabs_Qle_condition. now split. }
    destruct (delta_gap i >? 0) eqn:Eg;
      [apply Qgtb_true in Eg | apply Qgtb_false in Eg].
    + split; [split; intros H; [discriminate H | exfalso; lra]|].
      split; split; intros H; try discriminate H; try reflexivity; try lra;
        exfalso; lra.
    + split; [split; intros H; [discriminate H | exfalso; lra]|].
      split; split; intros H; try discriminate H; try reflexivity; try lra;
        exfalso; lra.
Qed.

Lemma need_type_by_gap_witness :
  need_type_of {| current_beta_weighted_delta := -15.50;
                  target_delta_exposure := 50;
                  spy_price := 450;
                  tolerance_range := None;
                  portfolio_size := None |} = ADD_LONG_DELTA.
Proof.
  apply (proj1 (proj2 (need_type_by_gap
           {| current_beta_weighted_delta := -15.50;
              target_delta_exposure := 50;
              spy_price := 450;
              tolerance_range := None;
              portfolio_size := None |} ltac:(discriminate)))).
  reflexivity.
Defined.

(** X25.  For a portfolio above $500,000 with the default tolerance, the
    tolerance is 30 SPY shares, so an adjustment that is needed is never of
    LOW urgency; for a portfolio below $100,000 it is 7.5 shares. *)
Theorem tolerance_by_portfolio_size (i : needs_input) (size : Q) :
  tolerance_range i = None ->
  portfolio_size i = Some size ->
  (500000 < size ->
   effective_tolerance i == 30 /\
   (status_of i = ADJUSTMENT_NEEDED -> urgency_of i <> URGENCY_LOW)) /\
  (size < 100000 -> effective_tolerance i == 7.5).
Proof.
  intros Ht Hs. unfold effective_tolerance. rewrite Ht, Hs.
  split.
  - intros Hbig. apply Qgtb_true in Hbig.
    assert (Etol : effective_tolerance i == 30).
    { unfold effective_tolerance. rewrite Ht, Hs, Hbig. reflexivity. }
    rewrite Hbig. split; [reflexivity|].
    unfold status_of, urgency_of, magnitude.
    destruct (Qabs (delta_gap i) <=? effective_tolerance i) eqn:E; [discriminate|].
    apply Qleb_false in E. rewrite Etol in E.
    intros _.
    assert (E25 : (Qabs (delta_gap i) <? 25) = false) by (apply Qltb_false; lra).
    rewrite E25. destruct (_ <? 75); discriminate.
  - intros Hsmall.
    assert (E1 : (size >? 500000) = false) by (apply Qgtb_false; lra).
    apply Qltb_true in Hsmall. rewrite E1, Hsmall. reflexivity.
Qed.

Lemma tolerance_by_portfolio_size_witness :
  effective_tolerance {| current_beta_weighted_delta := 27.41;
                         target_delta_exposure := 50;
                         spy_price := 450;
                         tolerance_range := None;
                         portfolio_size := Some 750000 |} == 30.
Proof.
  apply (proj1 (tolerance_by_portfolio_size
           {| current_beta_weighted_delta := 27.41;
              target_delta_exposure := 50;
              spy_price := 450;
              tolerance_range := None;
              portfolio_size := Some 750000 |} 750000 eq_refl eq_refl)).
  reflexivity.
Defined.

(** X30.  The warning to split a large adjustment into tranches is raised
    only on the long side: it implies HIGH urgency and never accompanies a
    need for short delta, and a gap that is zero or negative never raises
    it, however large. *)
Theorem tranche_warning_long_side_only (i : needs_input) :
  (split_into_tranches i = true ->
   urgency_of i = URGENCY_HIGH /\ need_type_of i <> ADD_SHORT_DELTA) /\
  (delta_gap i <= 0 -> split_into_tranches i = false).
Proof.
  unfold split_into_tranches. split.
  - intros H. apply Qgtb_true in H. split.
    + unfold urgency_of, magnitude.
      assert (Habs : Qabs (delta_gap i) == delta_gap i)
        by (apply Qabs_pos; lra).
      assert (E1 : (Qabs (delta_gap i) <? 25) = false)
        by (apply Qltb_false; rewrite Habs; lra).
      assert (E2 : (Qabs (delta_gap i) <? 75) = false)
        by (apply Qltb_false; rewrite Habs; lra).
      now rewrite E1, E2.
    + unfold need_type_of. destruct (status_of i); [discriminate|].
      assert (E : (delta_gap i >? 0) = true) by (apply Qgtb_true; lra).
      rewrite E. discriminate.
  - intros H. apply Qgtb_false. lra.
Qed.

Lemma tranche_warning_long_side_only_witness :
  urgency_of {| current_beta_weighted_delta := -80;
                target_delta_exposure := 50;
                spy_price := 450;
                tolerance_range := None;
                portfolio_size := None |} = URGENCY_HIGH.
Proof.
  apply (proj1 (tranche_warning_long_side_only
           {| current_beta_weighted_delta := -80;
              target_delta_exposure := 50;
              spy_price := 450;
              tolerance_range := None;
              portfolio_size := None |})).
  reflexivity.
Defined.

End NeedsFacts.

(** ** Sector stacking *)

Section SectorFacts.

Import SectorStacking.

(** X26.  The composite relative strength is a weighted mean of the three
    horizons (the weights 0.5, 0.3 and 0.2 sum to 1): it lies between any
    bounds that hold for all three, and equals their common value when they
    agree. *)
Theorem composite_rs_weighted_mean (s : sector_strength) (lo hi : Q) :
  lo <= RS_20 s -> lo <= RS_40 s -> lo <= RS_60 s ->
  RS_20 s <= hi -> RS_40 s <= hi -> RS_60 s <= hi ->
  lo <= composite_rs s /\ composite_rs s <= hi /\
  (RS_20 s == RS_40 s -> RS_40 s == RS_60 s -> composite_rs s == RS_20 s).
Proof.
  intros. unfold composite_rs. repeat split; intros; lra.
Qed.

Lemma composite_rs_weighted_mean_witness :
  5.1 <= composite_rs (nth 1 Examples.example_sectors
                           (Build_sector_strength Disposition.XLK 0 0 0)) /\
  composite_rs (nth 1 Examples.example_sectors
                      (Build_sector_strength Disposition.XLK 0 0 0)) <= 8.2.
Proof.
  destruct (composite_rs_weighted_mean
              (nth 1 Examples.example_sectors
                   (Build_sector_strength Disposition.XLK 0 0 0)) 5.1 8.2)
    as (H1 & H2 & _); try discriminate.
  split; [exact H1 | exact H2].
Defined.

Lemma insert_sector_permutation (s : sector_strength) (l : list sector_strength) :
  Permutation (s :: l) (insert_sector s l).
Proof.
  induction l as [|r l IH]; simpl; [apply Permutation_refl|].
  destruct (composite_rs r <? composite_rs s); [apply Permutation_refl|].
  apply Permutation_trans with (r :: s :: l); [apply perm_swap|].
  now apply perm_skip.
Qed.

Lemma insert_sector_sorted (s : sector_strength) (l : list sector_strength) :
  StronglySorted (fun a b => composite_rs b <= composite_rs a) l ->
  StronglySorted (fun a b => composite_rs b <= composite_rs a) (insert_sector s l).
Proof.
  induction l as [|r l IH]; simpl; intros Hs.
  - constructor; constructor.
  - inversion Hs as [|? ? Hl Hr]; subst.
    destruct (composite_rs r <? composite_rs s) eqn:E.
    + apply Qltb_true in E. constructor; [exact Hs|].
      constructor; [lra|].
      rewrite Forall_forall in *. intros x Hx. specialize (Hr x Hx). lra.
    + apply Qltb_false in E. constructor; [now apply IH|].
      rewrite Forall_forall in *. intros x Hx.
      apply (Permutation_in _ (Permutation_sym (insert_sector_permutation s l))) in Hx.
      destruct Hx as [<- | Hx]; [exact E | now apply Hr].
Qed.

(** X27.  rank_sectors returns the sectors it was given, each once, in
    descending order of composite relative strength; the sector ranked
    first has the highest composite of all. *)
Theorem rank_sectors_sorted (sectors : list sector_strength) :
  Permutation sectors (rank_sectors sectors) /\
  StronglySorted (fun a b => composite_rs b <= composite_rs a)
                 (rank_sectors sectors) /\
  (forall top rest s,
     rank_sectors sectors = top :: rest -> In s sectors ->
     composite_rs s <= composite_rs top).
Proof.
  assert (Hperm : Permutation sectors (rank_sectors sectors)).
  { induction sectors as [|s l IH]; simpl; [apply perm_nil|].
    apply Permutation_trans with (s :: rank_sectors l);
      [now apply perm_skip | apply insert_sector_permutation]. }
  assert (Hsorted : StronglySorted (fun a b => composite_rs b <= composite_rs a)
                      (rank_sectors sectors)).
  { clear Hperm. induction sectors as [|s l IH]; simpl; [constructor|].
    now apply insert_sector_sorted. }
  split; [exact Hperm|]. split; [exact Hsorted|].
  intros top rest s Htop Hin.
  apply (Permutation_in _ Hperm) in Hin. rewrite Htop in Hin, Hsorted.
  inversion Hsorted as [|? ? _ Hall]; subst.
  destruct Hin as [<- | Hin]; [apply Qle_refl|].
  rewrite Forall_forall in Hall. now apply Hall.
Qed.

(** X28.  In a sector that is not behind SPY over the 20 days, a stock that
    passes the filter stock_composite_score > 0 is ahead of SPY; the score
    does not show that it is ahead of its sector. *)
Theorem positive_composite_beats_spy (s : stock_returns) :
  spy_return_20d s <= sector_return_20d s ->
  0 < stock_composite_score s ->
  0 < stock_rs_vs_spy s /\
  stock_rs_vs_spy s == stock_rs_vs_sector s + (sector_return_20d s - spy_return_20d s).
Proof.
  unfold stock_composite_score, stock_rs_vs_spy, stock_rs_vs_sector.
  intros H1 H2. split; [lra | ring].
Qed.

Lemma positive_composite_beats_spy_witness :
  0 < stock_composite_score
        {| stock_return_20d := 4; sector_return_20d := 5; spy_return_20d := 1 |} /\
  stock_rs_vs_sector
    {| stock_return_20d := 4; sector_return_20d := 5; spy_return_20d := 1 |} < 0 /\
  0 < stock_rs_vs_spy
        {| stock_return_20d := 4; sector_return_20d := 5; spy_return_20d := 1 |}.
Proof.
  split; [reflexivity|]. split; [reflexivity|].
  apply (positive_composite_beats_spy
           {| stock_return_20d := 4; sector_return_20d := 5; spy_return_20d := 1 |});
    [discriminate | reflexivity].
Defined.

(** X29.  Under every disposition no sector is both preferred and to be
    avoided; the top sector conflict is raised only for a top ranked sector
    that is not preferred. *)
Theorem preferred_and_avoid_disjoint (d : Disposition.market_disposition)
    (s : sector_strength) (sectors : list sector_strength) :
  preferred d s && avoid d s = false /\
  (top_sector_conflict d sectors = true ->
   exists top rest, rank_sectors sectors = top :: rest /\
                    avoid d top = true /\ preferred d top = false).
Proof.
  assert (Hdis : forall x, preferred d x && avoid d x = false).
  { intros x. unfold preferred, avoid.
    destruct d; try (destruct (etf x); reflexivity).
    destruct (composite_rs x >? 0) eqn:E1; [|reflexivity].
    destruct (composite_rs x <? -3) eqn:E2; [|reflexivity].
    apply Qgtb_true in E1. apply Qltb_true in E2. exfalso. lra. }
  split; [apply Hdis|].
  unfold top_sector_conflict.
  destruct (rank_sectors sectors) as [|top rest]; [discriminate|].
  intros Ha. exists top, rest. split; [reflexivity|]. split; [exact Ha|].
  specialize (Hdis top). rewrite Ha in Hdis.
  now rewrite andb_true_r in Hdis.
Qed.

Lemma preferred_and_avoid_disjoint_witness :
  exists top rest,
    rank_sectors [Build_sector_strength Disposition.XLU 3 3 3;
                  Build_sector_strength Disposition.XLK 1 1 1] = top :: rest /\
    avoid Disposition.BULL top = true /\ preferred Disposition.BULL top = false.
Proof.
  apply (proj2 (preferred_and_avoid_disjoint Disposition.BULL
                  (Build_sector_strength Disposition.XLU 3 3 3)
                  [Build_sector_strength Disposition.XLU 3 3 3;
                   Build_sector_strength Disposition.XLK 1 1 1])).
  reflexivity.
Defined.

End SectorFacts.
